(** * The agent administration scripts of bp-sdk

    A shallow embedding of [scripts/update-builder-agent.py] (the
    reconciliation procedure) and [scripts/create-readme-agent.py] (the
    creation procedure), and the properties of their merge logic, their
    error paths and their network traces.

    Python dictionaries are finite maps with string keys, Python lists are
    lists, exceptions are an error result, and the console and the HTTP
    client are an explicit state threaded through every call. *)

From stdpp Require Import gmap strings list fin_maps.
From Stdlib Require Import ZArith.

#[local] Set Warnings "-register-all".
#[local] Open Scope Z_scope.
#[local] Open Scope string_scope.
#[local] Open Scope list_scope.

(** ** Python values

    The values that [response.json()] and [yaml.safe_load] produce and that
    [json=payload] serialises.  Dictionary keys are strings: every lookup
    of the scripts is by a string literal, which no key of another type
    equals.  A float is kept as its IEEE-754 binary64 bit pattern; the
    scripts never compute with one, they only test it for truth. *)

Inductive value : Type :=
  | VNone
  | VBool (b : bool)
  | VInt (n : Z)
  | VFloat (bits : Z)
  | VStr (s : string)
  | VList (l : list value)
  | VDict (d : gmap string value).

(** Exceptions the scripts raise or let escape. *)
Inductive exn : Type :=
  | FileNotFoundError
  | OSError
  | YAMLError
  | ValueError
  | AttributeError
  | KeyError
  | TypeError
  | TransportError
  | HTTPStatusError (status : Z)
  | JSONDecodeError
  | SystemExit (code : Z).

Inductive result (A : Type) : Type :=
  | Ok (a : A)
  | Raise (e : exn).
Arguments Ok {A} a.
Arguments Raise {A} e.

#[global] Instance result_ret : MRet result := λ A a, Ok a.
#[global] Instance result_bind : MBind result := λ A B k r,
  match r with
  | Ok a => k a
  | Raise e => Raise e
  end.

(** ** The Python operations the scripts use *)

Module Py.

(** [o.get(k, dflt)]: only a dict has the method. *)
Definition get (o : value) (k : string) (dflt : value) : result value :=
  match o with
  | VDict d => Ok (default dflt (d !! k))
  | _ => Raise AttributeError
  end.

(** [o[k]] for a string key [k]: a missing key is a [KeyError], and no
    other type is subscriptable by a string. *)
Definition getitem (o : value) (k : string) : result value :=
  match o with
  | VDict d =>
      match d !! k with
      | Some v => Ok v
      | None => Raise KeyError
      end
  | _ => Raise TypeError
  end.

(** [o.items()], as the mapping it enumerates. *)
Definition items (o : value) : result (gmap string value) :=
  match o with
  | VDict d => Ok d
  | _ => Raise AttributeError
  end.

(** Truth value, as [not o] and [if o] test it.  The two float zeros are
    the bit patterns [0] and [2^63]. *)
Definition truthy (o : value) : bool :=
  match o with
  | VNone => false
  | VBool b => b
  | VInt n => negb (Z.eqb n 0)
  | VFloat bits => negb (Z.eqb bits 0 || Z.eqb bits (2 ^ 63))
  | VStr s => negb (String.eqb s "")
  | VList l => match l with [] => false | _ => true end
  | VDict d => negb (bool_decide (d = ∅))
  end.

(** The elements a [for] loop or a comprehension visits.  A dict yields
    its keys (the insertion order is not kept by the map; every use below
    fails on the first key whichever it is), a string its characters. *)
Definition iter (o : value) : result (list value) :=
  match o with
  | VList l => Ok l
  | VDict d => Ok ((λ kv, VStr kv.1) <$> map_to_list d)
  | VStr s => Ok ((λ c, VStr (String c "")) <$> String.list_ascii_of_string s)
  | _ => Raise TypeError
  end.

(** [len(o)].  A string is counted in bytes here, in characters by
    Python; the scripts only print the number. *)
Definition len (o : value) : result Z :=
  match o with
  | VStr s => Ok (Z.of_nat (String.length s))
  | VList l => Ok (Z.of_nat (length l))
  | VDict d => Ok (Z.of_nat (size d))
  | _ => Raise TypeError
  end.

(** [o == s] for a string literal [s]. *)
Definition eq_str (o : value) (s : string) : bool :=
  match o with
  | VStr t => String.eqb t s
  | _ => false
  end.

(** [s * n]. *)
Fixpoint repeat_str (s : string) (n : nat) : string :=
  match n with
  | O => ""
  | S n' => String.append s (repeat_str s n')
  end.

End Py.

(** ** The world the scripts run in *)

Inductive http_method : Type := GET | PUT | POST.

Record request : Type := {
  method : http_method;
  url : string;
  headers : gmap string string;
  json : option value
}.

(** A response: its status code, its raw body, and the body parsed as JSON
    ([None] when it is not JSON, where [response.json()] raises). *)
Record response : Type := {
  status_code : Z;
  text : string;
  json_body : option value
}.

(** What a request comes to: a response, or no response at all (connection
    refused, timeout). *)
Inductive outcome : Type :=
  | Responded (r : response)
  | Unreachable.

(** The file at [YAML_PATH]. *)
Inductive yaml_file : Type :=
  | Absent
  | Unreadable
  | Malformed
  | Document (data : value).

(** What a run is given: the process environment, the directory
    [Path(__file__).parent.parent.parent], the declarative file, and the
    remote service, which answers a request knowing the requests sent
    before it. *)
Record environment : Type := {
  environ : gmap string string;
  base_dir : string;
  yaml : yaml_file;
  remote : list request → request → outcome
}.

(** A printed line is the sequence of the pieces of its f-string. *)
Inductive piece : Type :=
  | Lit (s : string)
  | Fmt (v : value)
  | FmtInt (n : Z).

(** What a run leaves behind: the requests sent and the lines printed, both
    oldest first. *)
Record state : Type := {
  sent : list request;
  stdout : list (list piece)
}.

Definition initial : state := {| sent := []; stdout := [] |}.

Definition script (A : Type) : Type := environment → state → result A * state.

#[global] Instance script_ret : MRet script := λ A a _ st, (Ok a, st).
#[global] Instance script_bind : MBind script := λ A B k m env st,
  match m env st with
  | (Ok a, st') => k a env st'
  | (Raise e, st') => (Raise e, st')
  end.

Definition lift {A} (r : result A) : script A := λ _ st, (r, st).
Definition raise {A} (e : exn) : script A := lift (Raise e).
Definition ask : script environment := λ env st, (Ok env, st).

Definition print (l : list piece) : script unit := λ _ st,
  (Ok tt, {| sent := sent st; stdout := stdout st ++ [l] |}).

(** One HTTP exchange that the client carries out: the request goes on the
    wire, and the environment says what comes back.  The request counts as
    sent whether or not it is answered.  What a client library does on its
    own around the exchange is not part of it: [httpx] and [requests] raise
    without sending for a header value or a body they cannot encode, and
    [requests] follows redirects.  The properties that conclude that a
    request has been sent are therefore stated for exchanges that the
    service answers. *)
Definition send (r : request) : script response := λ env st,
  let st' := {| sent := sent st ++ [r]; stdout := stdout st |} in
  match remote env (sent st) r with
  | Responded resp => (Ok resp, st')
  | Unreachable => (Raise TransportError, st')
  end.

(** httpx's [Response.raise_for_status]: every status outside 200..299
    raises. *)
Definition raise_for_status (resp : response) : script unit :=
  if ((200 <=? status_code resp) && (status_code resp <=? 299))%Z
  then mret tt
  else raise (HTTPStatusError (status_code resp)).

(** [response.json()]. *)
Definition response_json (resp : response) : script value :=
  match json_body resp with
  | Some v => mret v
  | None => raise JSONDecodeError
  end.

(** [sys.exit(code)]. *)
Definition sys_exit {A} (code : Z) : script A := raise (SystemExit code).

(** The status a process ends with: 0 when the script runs to its end, the
    argument of [sys.exit], and 1 for any other exception that escapes. *)
Definition exit_status {A} (r : result A) : Z :=
  match r with
  | Ok _ => 0
  | Raise (SystemExit code) => code
  | Raise _ => 1
  end.

(** The newline character. *)
Definition NL : string := String (Ascii.ascii_of_nat 10) "".

(** ** update-builder-agent.py *)

Module UpdateBuilderAgent.

Definition AGENT_ID : string := "695aad9ba45696ac999e18cf".

(** [os.environ.get("LYZR_API_KEY", <literal>)]. *)
Definition API_KEY_DEFAULT : string :=
  "sk-default-8YV7PJp8NNBoZpVfOz8jg6GN0dPkaIEn".
Definition API_KEY (env : environment) : string :=
  default API_KEY_DEFAULT (environ env !! "LYZR_API_KEY").

Definition BASE_URL : string := "https://agent-prod.studio.lyzr.ai".

Definition YAML_PATH (env : environment) : string :=
  base_dir env +:+ "/blueprints/local/agents/builder-manager.yaml".

Definition SHORT_TERM_MEMORY_CONFIG : value :=
  VDict (<["type" := VStr "SHORT_TERM_MEMORY"]>
        (<["config" := VDict {["message_count" := VInt 20]}]>
        (<["priority" := VInt 0]> ∅))).

Definition load_system_prompt_from_yaml : script value :=
  env ← ask;
  match yaml env with
  | Absent => raise FileNotFoundError
  | Unreadable => raise OSError
  | Malformed => raise YAMLError
  | Document data =>
      spec ← lift (Py.get data "spec" (VDict ∅));
      instructions ← lift (Py.get spec "instructions" (VStr ""));
      if Py.truthy instructions then mret instructions
      else raise ValueError
  end.

Definition agent_url : string := BASE_URL +:+ "/v3/agents/" +:+ AGENT_ID.

Definition agent_headers (env : environment) : gmap string string :=
  <["X-API-Key" := API_KEY env]>
  (<["Content-Type" := "application/json"]> ∅).

Definition get_current_agent : script value :=
  env ← ask;
  response ← send {| method := GET; url := agent_url;
                     headers := agent_headers env; json := None |};
  raise_for_status response;;
  response_json response.

Definition update_agent (payload : value) : script value :=
  env ← ask;
  response ← send {| method := PUT; url := agent_url;
                     headers := agent_headers env; json := Some payload |};
  raise_for_status response;;
  response_json response.

(** The tuple of line 65. *)
Definition memory_types : list string :=
  ["memory"; "SHORT_TERM_MEMORY"; "STRUCTURED_MEMORY"].

(** [t in ("memory", "SHORT_TERM_MEMORY", "STRUCTURED_MEMORY")]. *)
Definition in_memory_types (t : value) : bool :=
  existsb (Py.eq_str t) memory_types.

(** The comprehension of line 65, element by element and in order:
    [f.get("type")] is evaluated for every [f], and the first entry that
    is not a dict aborts the whole comprehension. *)
Fixpoint drop_memory_features (fs : list value) : result (list value) :=
  match fs with
  | [] => Ok []
  | f :: rest =>
      t ← Py.get f "type" VNone ;
      kept ← drop_memory_features rest ;
      Ok (if in_memory_types t then kept else f :: kept)
  end.

Definition ensure_short_term_memory (features : value) : result value :=
  fs ← Py.iter features ;
  kept ← drop_memory_features fs ;
  Ok (VList (kept ++ [SHORT_TERM_MEMORY_CONFIG])).

(** *** The same function on list objects

    [ensure_short_term_memory] rebinds its parameter to the list that the
    comprehension builds and appends to that one.  Here lists are objects in
    a store and the function takes and returns references, so that what
    happens to the caller's list is visible.  The entries themselves are
    never written to and stay values.  The result is [None] only for a
    reference to no object, which Python cannot form. *)

Module Heap.

Abbreviation loc := positive.
Abbreviation store := (gmap loc (list value)).

(** A new list object holding [l]. *)
Definition alloc (l : list value) (σ : store) : loc * store :=
  let r := fresh (dom σ) in (r, <[r := l]> σ).

(** [r.append(x)]. *)
Definition append (r : loc) (x : value) (σ : store) : store :=
  alter (λ l, l ++ [x]) r σ.

Definition ensure_short_term_memory (features : loc) (σ : store)
  : option (result loc * store) :=
  fs ← σ !! features;
  match drop_memory_features fs with
  | Raise e => Some (Raise e, σ)
  | Ok kept =>
      let '(features', σ1) := alloc kept σ in
      let σ2 := append features' SHORT_TERM_MEMORY_CONFIG σ1 in
      Some (Ok features', σ2)
  end.

End Heap.

(** [[f.get('type') for f in o.get('features', [])]], as lines 91 and 120
    print it. *)
Definition feature_types (o : value) : result (list value) :=
  features ← Py.get o "features" (VList []);
  fs ← Py.iter features;
  mapM (λ f, Py.get f "type" VNone) fs.

Definition readonly_fields : list string :=
  ["_id"; "created_at"; "updated_at"; "api_key"; "version"].

(** Lines 95 to 105 of [main]: the payload, from the fetched configuration
    and the loaded prompt. *)
Definition prepare_update_payload (current system_prompt : value)
  : result (gmap string value) :=
  items ← Py.items current;
  let payload : gmap string value :=
    filter (λ kv, kv.1 ∉ readonly_fields) items in
  let payload :=
    <["response_format" := VDict {["type" := VStr "json_object"]}]> payload in
  let payload := <["agent_instructions" := system_prompt]> payload in
  features ←
    ensure_short_term_memory (default (VList []) (payload !! "features"));
  mret (<["features" := features]> payload).

(** The generator of lines 128 to 131 under [any], which stops at the
    first entry of type SHORT_TERM_MEMORY and looks at none after it. *)
Fixpoint any_short_term_memory (fs : list value) : result bool :=
  match fs with
  | [] => mret false
  | f :: rest =>
      t ← Py.get f "type" VNone;
      if Py.eq_str t "SHORT_TERM_MEMORY" then mret true
      else any_short_term_memory rest
  end.

Definition rule : string := Py.repeat_str "=" 60.

(** The two checks of lines 124 and 128 to 131. *)
Definition response_format_is_json (updated : value) : result bool :=
  response_format ← Py.get updated "response_format" (VDict ∅);
  t ← Py.get response_format "type" VNone;
  mret (Py.eq_str t "json_object").

Definition has_short_term_memory (updated : value) : result bool :=
  features ← Py.get updated "features" (VList []);
  fs ← Py.iter features;
  any_short_term_memory fs.

Definition warning_response_format : list piece :=
  [Lit (NL +:+ "❌ WARNING: response_format may not have updated correctly")].
Definition warning_memory : list piece :=
  [Lit (NL +:+ "❌ WARNING: SHORT_TERM_MEMORY feature may not have been added")].
Definition success_line : list piece :=
  [Lit (NL +:+ "✅ SUCCESS: Agent updated with JSON output mode and SHORT_TERM_MEMORY!")].

(** Lines 122 to 139 of [main]: the checks on the re-fetched
    configuration.  [success] is only ever read by the last [if]. *)
Definition verify (updated : value) : script unit :=
  let success := true in
  is_json ← lift (response_format_is_json updated);
  success ←
    (if negb is_json
     then print warning_response_format;; mret false
     else mret success);
  has_short_term_memory ← lift (has_short_term_memory updated);
  success ←
    (if negb has_short_term_memory
     then print warning_memory;; mret false
     else mret success);
  (if success : bool then print success_line else mret tt);;
  print [Lit (NL +:+ rule)].

Definition main : script unit :=
  print [Lit rule];;
  print [Lit "Updating Blueprint Builder Agent"];;
  print [Lit "  - JSON Output Mode"];;
  print [Lit "  - SHORT_TERM_MEMORY (20 messages)"];;
  print [Lit rule];;
  (* Load system prompt from YAML *)
  env ← ask;
  print [Lit (NL +:+ "1. Loading system prompt from YAML...")];;
  print [Lit "   Path: "; Lit (YAML_PATH env)];;
  system_prompt ← load_system_prompt_from_yaml;
  n ← lift (Py.len system_prompt);
  print [Lit "   Loaded "; FmtInt n; Lit " characters"];;
  (* Get current config *)
  print [Lit (NL +:+ "2. Fetching current agent configuration...")];;
  current ← get_current_agent;
  name ← lift (Py.getitem current "name");
  print [Lit "   Agent: "; Fmt name];;
  response_format ← lift (Py.get current "response_format" VNone);
  print [Lit "   Current response_format: "; Fmt response_format];;
  types ← lift (feature_types current);
  print [Lit "   Current features: "; Fmt (VList types)];;
  (* Prepare update payload *)
  payload ← lift (prepare_update_payload current system_prompt);
  print [Lit (NL +:+ "3. Updating agent...")];;
  response_format ← lift (Py.getitem (VDict payload) "response_format");
  print [Lit "   response_format: "; Fmt response_format];;
  features ← lift (Py.getitem (VDict payload) "features");
  fs ← lift (Py.iter features);
  types ← lift (mapM (λ f, Py.get f "type" VNone) fs);
  print [Lit "   features: "; Fmt (VList types)];;
  (* Update *)
  result ← update_agent (VDict payload);
  print [Lit (NL +:+ "4. Update successful!")];;
  updated_at ← lift (Py.get result "updated_at" (VStr "N/A"));
  print [Lit "   Updated at: "; Fmt updated_at];;
  (* Verify *)
  print [Lit (NL +:+ "5. Verifying update...")];;
  updated ← get_current_agent;
  response_format ← lift (Py.get updated "response_format" VNone);
  print [Lit "   response_format: "; Fmt response_format];;
  types ← lift (feature_types updated);
  print [Lit "   features: "; Fmt (VList types)];;
  verify updated.

(** Running the file as a program: the module body, then [main()]. *)
Definition run (env : environment) : Z * state :=
  let '(r, st) := main env initial in (exit_status r, st).

End UpdateBuilderAgent.

(** ** create-readme-agent.py *)

Module CreateReadmeAgent.

Definition AGENT_API_URL : string := "https://agent-prod.studio.lyzr.ai".

Definition agent_instructions : string :=
"You are a technical documentation specialist who creates professional README files for AI agent blueprints.

## Your Task
Generate a README following the Problem-Approach-Capabilities structure. This format helps users quickly understand:
1. Why this blueprint exists (The Problem)
2. How it works (The Approach)
3. What it can do (Capabilities)
4. How to get started (Getting Started)

## Writing Guidelines

### Tone
- Professional but approachable
- Confident but not arrogant
- Specific with concrete examples

### Structure
Always use this exact structure with markdown headers:

## The Problem
### The Situation
[Describe current state without the solution - 2-3 sentences about what teams/users currently do]

### The Challenge
[Explain why existing approaches fail - expertise required, consistency issues, resource constraints]

### What's At Stake
[Consequences of not solving this - business, customer, and operational impact]

---

## The Approach
### The Key Insight
[One paragraph explaining the conceptual breakthrough]

### The Method
[How the agents work together - describe coordinator and specialists, workflow sequence]

### Why This Works
[Benefits: consistency, specialization, scale]

---

## Capabilities
### Core Capabilities
- [4-6 bullet points with specific features]

### Extended Capabilities
- [3-4 additional features]

### Boundaries
- [3-4 things it doesn't do - manage expectations]

---

## Getting Started
### Prerequisites
- [What users need - 2-3 items]

### Your First Run
[A concrete, realistic example input to try]

### Pro Tips
- [3-4 tips for best results]

## Important
- Return ONLY the markdown content
- Do NOT wrap in JSON or code blocks
- Be specific with numbers and categories where possible
- Keep each section concise but informative".

Definition agent_config : value :=
  VDict (list_to_map [
    ("name", VStr "README Builder");
    ("description", VStr "Generates professional README documentation for blueprints following the Problem-Approach-Capabilities structure");
    ("model", VStr "groq/llama-3.3-70b-versatile");
    ("provider_id", VStr "Groq");
    ("llm_credential_id", VStr "lyzr_groq");
    ("agent_role", VStr "Technical Documentation Specialist");
    ("agent_goal", VStr "Create clear, comprehensive, and well-structured README documentation that helps users understand and effectively use AI agent blueprints");
    ("agent_instructions", VStr agent_instructions);
    ("temperature", VFloat 4604480259023595110);
    ("top_p", VFloat 4606281698874543309);
    ("response_format", VDict {["type" := VStr "text"]});
    ("features", VList []);
    ("tools", VList []);
    ("files", VList []);
    ("tool_configs", VList [])
  ]).

(** [create_agent] reads the module's [API_KEY]; here it is its argument. *)
Definition create_agent (API_KEY : string) : script value :=
  let headers : gmap string string :=
    <["X-API-Key" := API_KEY]>
    (<["Content-Type" := "application/json"]> ∅) in
  response ← send {| method := POST; url := AGENT_API_URL +:+ "/v3/agents/";
                     headers := headers; json := Some agent_config |};
  (if negb (Z.eqb (status_code response) 200)
   then print [Lit "Error creating agent: "; FmtInt (status_code response)];;
        print [Lit (text response)];;
        sys_exit 1
   else mret tt);;
  result ← response_json response;
  agent_id ← lift (Py.get result "agent_id" VNone);
  print [Lit "README Builder agent created successfully!"];;
  print [Lit (NL +:+ "Agent ID: "); Fmt agent_id];;
  print [Lit (NL +:+ "Add this to your .env.local file:")];;
  print [Lit "README_BUILDER_AGENT_ID="; Fmt agent_id];;
  mret agent_id.

(** Lines 16 to 18. *)
Definition missing_api_key {A} : script A :=
  print [Lit "Error: LYZR_API_KEY environment variable not set"];;
  print [Lit "Set it with: export LYZR_API_KEY=your_api_key"];;
  sys_exit 1.

(** The module body, top to bottom: [os.getenv] gives [None] for an unset
    variable, and [not API_KEY] holds for [None] and for the empty string. *)
Definition module_body : script value :=
  env ← ask;
  API_KEY ←
    match environ env !! "LYZR_API_KEY" with
    | Some key => if String.eqb key "" then missing_api_key else mret key
    | None => missing_api_key
    end;
  create_agent API_KEY.

Definition run (env : environment) : Z * state :=
  let '(r, st) := module_body env initial in (exit_status r, st).

End CreateReadmeAgent.

(** * Vocabulary of the properties *)

Import UpdateBuilderAgent.

(** ** Kinds of feature entries *)

(** The memory kinds: an entry whose type is one of the three strings. *)
Definition memory_kind (f : value) : bool :=
  match f with
  | VDict d =>
      match d !! "type" with
      | Some (VStr s) =>
          bool_decide (s ∈ ["memory"; "SHORT_TERM_MEMORY"; "STRUCTURED_MEMORY"])
      | _ => false
      end
  | _ => false
  end.

Definition non_memory (f : value) : bool := negb (memory_kind f).

Definition is_dict (v : value) : bool :=
  match v with
  | VDict _ => true
  | _ => false
  end.

(** A feature list as the service documents it: the key is absent, or its
    value is a list of dicts. *)
Definition features_well_formed (config : gmap string value) : bool :=
  match config !! "features" with
  | None => true
  | Some (VList fs) => forallb is_dict fs
  | Some _ => false
  end.

(** ** The payload *)

Definition overwritten_fields : list string :=
  ["response_format"; "agent_instructions"; "features"].

Definition strip_readonly (current : gmap string value) : gmap string value :=
  filter (λ kv, kv.1 ∉ readonly_fields) current.

(** Membership of a literal in a list of other literals is absurd. *)
Ltac literal_not_in H :=
  repeat (apply elem_of_cons in H as [H|H]; [discriminate|]);
  by apply elem_of_nil in H.

(** ** The loading step *)

(** The shapes of the document for which line 34 is reached with nothing to
    return: a mapping with no [spec] key, or whose [spec] is a mapping with
    no [instructions] key or with the empty string there.  (A document or a
    [spec] that is no mapping has no [spec.instructions] either, but does
    not come this far: see [instructions_absent_or_empty].) *)
Definition instructions_missing (data : value) : bool :=
  match data with
  | VDict d =>
      match d !! "spec" with
      | None => true
      | Some (VDict spec) =>
          match spec !! "instructions" with
          | None => true
          | Some (VStr s) => String.eqb s ""
          | Some _ => false
          end
      | Some _ => false
      end
  | _ => false
  end.

(** What [load_system_prompt_from_yaml] returns or raises; it prints and
    sends nothing. *)
Definition loaded (env : environment) : result value :=
  (load_system_prompt_from_yaml env initial).1.

(** ** Requests *)

(** The request of [get_current_agent] and the request of [update_agent]. *)
Definition get_request (env : environment) : request :=
  {| method := GET; url := agent_url; headers := agent_headers env;
     json := None |}.

Definition put_request (env : environment) (payload : value) : request :=
  {| method := PUT; url := agent_url; headers := agent_headers env;
     json := Some payload |}.

(** The request of [create_agent]. *)
Definition post_request (key : string) : request :=
  {| method := POST;
     url := CreateReadmeAgent.AGENT_API_URL +:+ "/v3/agents/";
     headers := <["X-API-Key" := key]>
                (<["Content-Type" := "application/json"]> ∅);
     json := Some CreateReadmeAgent.agent_config |}.

Definition is_success (resp : response) : bool :=
  ((200 <=? status_code resp) && (status_code resp <=? 299))%Z.

(** Every request a script sends from any state satisfies [P]. *)
Definition sends_only (P : request → Prop) {A} (m : script A)
    (env : environment) : Prop :=
  ∀ st, ∃ new, sent (m env st).2 = sent st ++ new ∧ Forall P new.

(** ** Printed lines *)

Definition missing_key_lines : list (list piece) :=
  [[Lit "Error: LYZR_API_KEY environment variable not set"];
   [Lit "Set it with: export LYZR_API_KEY=your_api_key"]].

Definition created_lines (agent_id : value) : list (list piece) :=
  [[Lit "README Builder agent created successfully!"];
   [Lit (NL +:+ "Agent ID: "); Fmt agent_id];
   [Lit (NL +:+ "Add this to your .env.local file:")];
   [Lit "README_BUILDER_AGENT_ID="; Fmt agent_id]].

(** The lines that [verify] prints for the results of its two checks. *)
Definition verify_lines (is_json has_memory : bool) : list (list piece) :=
  (if is_json then [] else [warning_response_format])
  ++ (if has_memory then [] else [warning_memory])
  ++ (if is_json && has_memory then [success_line] else [])
  ++ [[Lit (NL +:+ rule)]].

(** ** The verification step *)

(** [main] up to line 120: everything before the checks, giving the
    re-fetched configuration.  [main] is this followed by [verify]
    (lemma [main_split]). *)
Definition before_verify : script value :=
  print [Lit rule];;
  print [Lit "Updating Blueprint Builder Agent"];;
  print [Lit "  - JSON Output Mode"];;
  print [Lit "  - SHORT_TERM_MEMORY (20 messages)"];;
  print [Lit rule];;
  (* Load system prompt from YAML *)
  env ← ask;
  print [Lit (NL +:+ "1. Loading system prompt from YAML...")];;
  print [Lit "   Path: "; Lit (YAML_PATH env)];;
  system_prompt ← load_system_prompt_from_yaml;
  n ← lift (Py.len system_prompt);
  print [Lit "   Loaded "; FmtInt n; Lit " characters"];;
  (* Get current config *)
  print [Lit (NL +:+ "2. Fetching current agent configuration...")];;
  current ← get_current_agent;
  name ← lift (Py.getitem current "name");
  print [Lit "   Agent: "; Fmt name];;
  response_format ← lift (Py.get current "response_format" VNone);
  print [Lit "   Current response_format: "; Fmt response_format];;
  types ← lift (feature_types current);
  print [Lit "   Current features: "; Fmt (VList types)];;
  (* Prepare update payload *)
  payload ← lift (prepare_update_payload current system_prompt);
  print [Lit (NL +:+ "3. Updating agent...")];;
  response_format ← lift (Py.getitem (VDict payload) "response_format");
  print [Lit "   response_format: "; Fmt response_format];;
  features ← lift (Py.getitem (VDict payload) "features");
  fs ← lift (Py.iter features);
  types ← lift (mapM (λ f, Py.get f "type" VNone) fs);
  print [Lit "   features: "; Fmt (VList types)];;
  (* Update *)
  result ← update_agent (VDict payload);
  print [Lit (NL +:+ "4. Update successful!")];;
  updated_at ← lift (Py.get result "updated_at" (VStr "N/A"));
  print [Lit "   Updated at: "; Fmt updated_at];;
  (* Verify *)
  print [Lit (NL +:+ "5. Verifying update...")];;
  updated ← get_current_agent;
  response_format ← lift (Py.get updated "response_format" VNone);
  print [Lit "   response_format: "; Fmt response_format];;
  types ← lift (feature_types updated);
  print [Lit "   features: "; Fmt (VList types)];;
  mret updated.

(** The configuration that the last fetch of a run returned, when the run
    got as far as fetching, updating and fetching again. *)
Definition refetched (env : environment) : option value :=
  match sent (run env).2 with
  | [g1; p; g2] =>
      match remote env [g1; p] g2 with
      | Responded resp => json_body resp
      | Unreachable => None
      end
  | _ => None
  end.

(** The claim that the exit status tells whether both checks passed on the
    re-fetched configuration. *)
Definition exit_status_reflects_checks (env : environment) : Prop :=
  ∀ updated, refetched env = Some updated →
    ((run env).1 = 0
     ↔ response_format_is_json updated = Ok true
       ∧ has_short_term_memory updated = Ok true).

(** ** Sample inputs *)

Definition one_list_store : Heap.store :=
  {[1%positive := [VDict {["type" := VStr "memory"]}; VDict ∅]]}.

(** The configuration of the end-to-end scenario, as fetched. *)
Definition fetched_example : gmap string value :=
  <["_id" := VStr "695aad9ba45696ac999e18cf"]>
  (<["name" := VStr "Blueprint Builder"]>
  (<["version" := VInt 3]>
  (<["temperature" := VFloat 4604480259023595110]>
  (<["agent_instructions" := VStr "Old."]>
  (<["response_format" := VDict {["type" := VStr "text"]}]>
  (<["features" :=
       VList [VDict (<["type" := VStr "STRUCTURED_MEMORY"]>
                    (<["config" := VDict ∅]>
                    (<["priority" := VInt 1]> ∅)))]]> ∅)))))).

(** A configuration that is already reconciled. *)
Definition reconciled_example : gmap string value :=
  <["name" := VStr "Blueprint Builder"]>
  (<["agent_instructions" := VStr "Old."]>
  (<["response_format" := VDict {["type" := VStr "json_object"]}]>
  (<["features" := VList [SHORT_TERM_MEMORY_CONFIG]]> ∅))).

(** A service that answers every request with the same response. *)
Definition constant_service (resp : response) : list request → request → outcome :=
  λ _ _, Responded resp.

Definition instructions_document (s : string) : yaml_file :=
  Document (VDict {["spec" := VDict {["instructions" := VStr s]}]}).

(** A run environment: no credential variable, a declarative file with the
    given instructions, and the given service. *)
Definition example_env (instructions : string)
    (service : list request → request → outcome) : environment :=
  {| environ := ∅; base_dir := "/srv/bp-sdk";
     yaml := instructions_document instructions; remote := service |}.

(** An environment with the credential variable set. *)
Definition keyed_env (key : string)
    (service : list request → request → outcome) : environment :=
  {| environ := {["LYZR_API_KEY" := key]}; base_dir := "/srv/bp-sdk";
     yaml := instructions_document "Hello."; remote := service |}.

(** A service that returns the configuration of the end-to-end scenario
    whatever it is sent, as one that ignores updates would. *)
Definition stale_response : response :=
  {| status_code := 200; text := "{}";
     json_body := Some (VDict fetched_example) |}.

Definition stale_env : environment :=
  example_env "Hello." (constant_service stale_response).

Definition empty_instructions_env : environment :=
  example_env "" (constant_service stale_response).

(** A service that refuses every request. *)
Definition forbidden_response : response :=
  {| status_code := 403; text := "Forbidden"; json_body := None |}.

Definition forbidden_env : environment :=
  example_env "Hello." (constant_service forbidden_response).

(** A creation that the service accepts, and one that it refuses. *)
Definition created_response : response :=
  {| status_code := 200; text := "{}";
     json_body := Some (VDict {["agent_id" := VStr "6a01"]}) |}.

Definition refused_env : environment :=
  keyed_env "sk-test" (constant_service forbidden_response).

(** ** Vocabulary of the further properties *)

(** An entry is a dict whose type is exactly [SHORT_TERM_MEMORY]. *)
Definition short_term_entry (f : value) : bool :=
  match f with
  | VDict d =>
      match d !! "type" with
      | Some (VStr s) => String.eqb s "SHORT_TERM_MEMORY"
      | _ => false
      end
  | _ => false
  end.

(** A service whose stored configuration has no [name]. *)
Definition nameless_env : environment :=
  example_env "Hello."
    (constant_service
       {| status_code := 200; text := "{}";
          json_body := Some (VDict {["features" := VList []]}) |}).

(** A service that serves the configuration of the end-to-end scenario and
    refuses to be written to. *)
Definition read_only_service : list request → request → outcome :=
  λ _ r,
    match method r with
    | PUT => Responded {| status_code := 500; text := "Internal Server Error";
                          json_body := None |}
    | _ => Responded stale_response
    end.

Definition read_only_env : environment :=
  example_env "Hello." read_only_service.

(** The configuration a service holds after the requests of [history], when
    it started with [config] and stores the body of every PUT. *)
Fixpoint stored (config : value) (history : list request) : value :=
  match history with
  | [] => config
  | r :: rest =>
      stored (match method r, json r with
              | PUT, Some body => body
              | _, _ => config
              end) rest
  end.

(** A service that stores what it is sent and answers every request with
    what it then holds. *)
Definition storing_service (config : value) : list request → request → outcome :=
  λ history r,
    Responded {| status_code := 200; text := "";
                 json_body := Some (stored config (history ++ [r])) |}.

Definition storing_env : environment :=
  example_env "Hello." (storing_service (VDict fetched_example)).

(** The payload of the end-to-end scenario. *)
Definition merged_example : gmap string value :=
  <["name" := VStr "Blueprint Builder"]>
  (<["temperature" := VFloat 4604480259023595110]>
  (<["agent_instructions" := VStr "Hello."]>
  (<["response_format" := VDict {["type" := VStr "json_object"]}]>
  (<["features" := VList [SHORT_TERM_MEMORY_CONFIG]]> ∅)))).

(** An environment whose credential variable is set to the empty string. *)
Definition empty_key_env : environment :=
  keyed_env "" (constant_service stale_response).

(** A creation answered with 200 and a JSON object that names no agent. *)
Definition anonymous_response : response :=
  {| status_code := 200; text := "{}"; json_body := Some (VDict ∅) |}.

(** The nested field [spec.instructions] of a document, when it has one. *)
Definition spec_instructions (data : value) : option value :=
  match data with
  | VDict d =>
      match d !! "spec" with
      | Some (VDict spec) => spec !! "instructions"
      | _ => None
      end
  | _ => None
  end.

(** The nested field is absent, whatever the reason, or is the empty
    string. *)
Definition instructions_absent_or_empty (data : value) : bool :=
  match spec_instructions data with
  | None => true
  | Some (VStr s) => String.eqb s ""
  | Some _ => false
  end.

(** A declarative file that reads [spec:] with nothing after it, and an
    empty one: [yaml.safe_load] gives [{'spec': None}] and [None]. *)
Definition null_spec_env : environment :=
  {| environ := ∅; base_dir := "/srv/bp-sdk";
     yaml := Document (VDict {["spec" := VNone]});
     remote := constant_service stale_response |}.

Definition empty_file_env : environment :=
  {| environ := ∅; base_dir := "/srv/bp-sdk";
     yaml := Document VNone;
     remote := constant_service stale_response |}.

(** * Properties *)

(** ** The feature merge *)

Lemma in_memory_types_str (s : string) :
  in_memory_types (VStr s)
  = bool_decide (s ∈ ["memory"; "SHORT_TERM_MEMORY"; "STRUCTURED_MEMORY"]).
Proof.
  unfold in_memory_types, memory_types; simpl.
  destruct (String.eqb_spec s "memory") as [->|H1]; [done|].
  destruct (String.eqb_spec s "SHORT_TERM_MEMORY") as [->|H2]; [done|].
  destruct (String.eqb_spec s "STRUCTURED_MEMORY") as [->|H3]; [done|].
  simpl. symmetry. apply bool_decide_eq_false.
  rewrite !elem_of_cons, elem_of_nil. tauto.
Qed.

Lemma in_memory_types_get (d : gmap string value) :
  in_memory_types (default VNone (d !! "type")) = memory_kind (VDict d).
Proof.
  simpl. destruct (d !! "type") as [[]|]; simpl; try done.
  apply in_memory_types_str.
Qed.

Lemma memory_kind_short_term : memory_kind SHORT_TERM_MEMORY_CONFIG = true.
Proof. reflexivity. Qed.

(** On a list of dicts the comprehension of line 65 raises nothing and is
    the filter it reads as. *)
Lemma drop_memory_features_filter (L : list (gmap string value)) :
  drop_memory_features (VDict <$> L) = Ok (List.filter non_memory (VDict <$> L)).
Proof.
  induction L as [|d L IH]; [done|].
  cbn [fmap list_fmap drop_memory_features List.filter].
  rewrite IH. cbn -[in_memory_types non_memory].
  rewrite in_memory_types_get. unfold non_memory.
  by destruct (memory_kind (VDict d)).
Qed.

(** An entry that is not a dict has no [get]: the comprehension raises. *)
Lemma drop_memory_features_raises (fs : list value) (e : exn) :
  drop_memory_features fs = Raise e → e = AttributeError.
Proof.
  induction fs as [|f fs IH]; [done|]. simpl.
  destruct f; cbn; try (intros [= <-]; done).
  destruct (drop_memory_features fs); cbn; [done|].
  intros [= <-]. by apply IH.
Qed.


Lemma filter_non_memory_idemp (fs : list value) :
  List.filter non_memory (List.filter non_memory fs) = List.filter non_memory fs.
Proof.
  induction fs as [|f fs IH]; [done|]. simpl.
  destruct (non_memory f) eqn:E; simpl; [|done]. by rewrite E, IH.
Qed.


(** Three entries of the three memory kinds among two others. *)
Example ensure_short_term_memory_many :
  ensure_short_term_memory
    (VList [VDict {["type" := VStr "memory"]};
            VDict {["type" := VStr "tool"]};
            VDict {["type" := VStr "SHORT_TERM_MEMORY"]};
            VDict {["priority" := VInt 2]};
            VDict {["type" := VStr "STRUCTURED_MEMORY"]}])
  = Ok (VList [VDict {["type" := VStr "tool"]};
               VDict {["priority" := VInt 2]};
               SHORT_TERM_MEMORY_CONFIG]).
Proof. reflexivity. Qed.

(** A feature list with an entry that is no dict cannot be merged. *)
Example ensure_short_term_memory_not_a_dict :
  ensure_short_term_memory (VList [VStr "memory"]) = Raise AttributeError.
Proof. reflexivity. Qed.

(** ** The caller's list *)

(** C9: [ensure_short_term_memory] leaves the list it is given as it was.
    The list it returns is a new object, no list that existed before the
    call is changed, and the new list holds what the function on values
    computes. *)
Theorem ensure_short_term_memory_leaves_argument
    (σ : Heap.store) (features : Heap.loc) (fs : list value) :
  σ !! features = Some fs →
  ∃ r σ',
    Heap.ensure_short_term_memory features σ = Some (r, σ')
    ∧ σ' !! features = Some fs
    ∧ (∀ l, l ∈ dom σ → σ' !! l = σ !! l)
    ∧ match r with
      | Ok new =>
          (new ∉ dom σ) ∧ new ≠ features
          ∧ (∃ out, σ' !! new = Some out
                    ∧ ensure_short_term_memory (VList fs) = Ok (VList out))
      | Raise e =>
          σ' = σ ∧ ensure_short_term_memory (VList fs) = Raise e
      end.
Proof.
  intros Hfs. unfold Heap.ensure_short_term_memory, ensure_short_term_memory.
  rewrite Hfs. cbn.
  destruct (drop_memory_features fs) as [kept|e] eqn:Hdrop; cbn.
  - pose proof (is_fresh (dom σ)) as Hfresh.
    set (new := fresh (dom σ)) in *.
    assert (Hne : new ≠ features).
    { intros ->. apply Hfresh. apply elem_of_dom. by eexists. }
    eexists (Ok new), _. split; [reflexivity|].
    unfold Heap.append. split_and!.
    + rewrite lookup_alter_ne by done. by rewrite lookup_insert_ne.
    + intros l Hl. assert (new ≠ l) by (intros ->; done).
      rewrite lookup_alter_ne by done. by rewrite lookup_insert_ne.
    + done.
    + done.
    + exists (kept ++ [SHORT_TERM_MEMORY_CONFIG]). split; [|done].
      by rewrite lookup_alter_eq, lookup_insert_eq.
  - eexists (Raise e), _. split; [reflexivity|]. split_and!; done.
Qed.

Lemma ensure_short_term_memory_leaves_argument_witness :
  one_list_store !! 1%positive = Some [VDict {["type" := VStr "memory"]}; VDict ∅]
  ∧ ∃ r σ',
      Heap.ensure_short_term_memory 1%positive one_list_store = Some (r, σ')
      ∧ σ' !! 1%positive = Some [VDict {["type" := VStr "memory"]}; VDict ∅].
Proof.
  split; [reflexivity|].
  destruct (ensure_short_term_memory_leaves_argument one_list_store 1%positive
              [VDict {["type" := VStr "memory"]}; VDict ∅] eq_refl)
    as (r & σ' & H1 & H2 & _).
  by exists r, σ'.
Defined.

(** ** The update payload *)

Lemma strip_readonly_lookup (current : gmap string value) (k : string) :
  k ∉ readonly_fields → strip_readonly current !! k = current !! k.
Proof.
  intros Hk. unfold strip_readonly. rewrite map_lookup_filter.
  destruct (current !! k); simpl; [|done]. by rewrite option_guard_True.
Qed.

Lemma strip_readonly_lookup_readonly (current : gmap string value) (k : string) :
  k ∈ readonly_fields → strip_readonly current !! k = None.
Proof.
  intros Hk. unfold strip_readonly. apply map_lookup_filter_None_2.
  destruct (current !! k); [right|by left].
  intros x _ Hx. by apply Hx.
Qed.

Lemma overwritten_not_readonly (k : string) :
  k ∈ overwritten_fields → k ∉ readonly_fields.
Proof.
  unfold overwritten_fields, readonly_fields. intros Hk.
  repeat (apply elem_of_cons in Hk as [->|Hk]);
    [..|by apply elem_of_nil in Hk]; intros H; literal_not_in H.
Qed.

Lemma features_not_readonly : "features" ∉ readonly_fields.
Proof.
  apply overwritten_not_readonly. unfold overwritten_fields.
  rewrite !elem_of_cons. tauto.
Qed.

(** The payload in closed form, when the fetched features are dicts. *)
Lemma prepare_update_payload_dicts
    (current : gmap string value) (system_prompt : value)
    (L : list (gmap string value)) :
  default (VList []) (current !! "features") = VList (VDict <$> L) →
  prepare_update_payload (VDict current) system_prompt
  = Ok (<["features" :=
            VList (List.filter non_memory (VDict <$> L) ++ [SHORT_TERM_MEMORY_CONFIG])]>
        (<["agent_instructions" := system_prompt]>
        (<["response_format" := VDict {["type" := VStr "json_object"]}]>
        (strip_readonly current)))).
Proof.
  intros Hf. unfold prepare_update_payload. cbn.
  fold (strip_readonly current).
  rewrite !lookup_insert_ne by done.
  rewrite strip_readonly_lookup by apply features_not_readonly.
  rewrite Hf. unfold ensure_short_term_memory. cbn.
  by rewrite drop_memory_features_filter.
Qed.

Lemma forallb_is_dict (fs : list value) :
  forallb is_dict fs = true → ∃ L : list (gmap string value), fs = VDict <$> L.
Proof.
  induction fs as [|f fs IH]; [by exists []|].
  simpl. intros [Hf Hfs]%andb_true_iff.
  destruct (IH Hfs) as [L ->]. destruct f; try discriminate.
  by exists (d :: L).
Qed.

Lemma features_well_formed_dicts (current : gmap string value) :
  features_well_formed current = true →
  ∃ L : list (gmap string value),
    default (VList []) (current !! "features") = VList (VDict <$> L).
Proof.
  unfold features_well_formed. intros Hwf.
  destruct (current !! "features") as [v|]; [|by exists []].
  destruct v; try discriminate.
  destruct (forallb_is_dict _ Hwf) as [L ->]. by exists L.
Qed.

(** C2: whichever server-owned keys the fetched configuration has, the
    payload has none of them, and every key other than the three that are
    overwritten has in the payload the value it was fetched with. *)
Theorem payload_has_no_readonly_field
    (current : gmap string value) (system_prompt : value) :
  features_well_formed current = true →
  ∃ payload,
    prepare_update_payload (VDict current) system_prompt = Ok payload
    ∧ (∀ k, k ∈ ["_id"; "created_at"; "updated_at"; "api_key"; "version"] →
            payload !! k = None)
    ∧ (∀ k, k ∉ ["_id"; "created_at"; "updated_at"; "api_key"; "version"] →
            k ∉ ["response_format"; "agent_instructions"; "features"] →
            payload !! k = current !! k).
Proof.
  intros Hwf. destruct (features_well_formed_dicts current Hwf) as [L HL].
  eexists. split; [by apply prepare_update_payload_dicts|]. split.
  - intros k Hk.
    rewrite !lookup_insert_ne.
    + by apply strip_readonly_lookup_readonly.
    + intros <-. literal_not_in Hk.
    + intros <-. literal_not_in Hk.
    + intros <-. literal_not_in Hk.
  - intros k Hk Hover.
    apply not_elem_of_cons in Hover as [? Hover].
    apply not_elem_of_cons in Hover as [? Hover].
    apply not_elem_of_cons in Hover as [? _].
    rewrite !lookup_insert_ne by done.
    by apply strip_readonly_lookup.
Qed.

Lemma payload_has_no_readonly_field_witness :
  features_well_formed fetched_example = true
  ∧ ∃ payload,
      prepare_update_payload (VDict fetched_example) (VStr "Hello.") = Ok payload
      ∧ (∀ k, k ∈ ["_id"; "created_at"; "updated_at"; "api_key"; "version"] →
              payload !! k = None)
      ∧ (∀ k, k ∉ ["_id"; "created_at"; "updated_at"; "api_key"; "version"] →
              k ∉ ["response_format"; "agent_instructions"; "features"] →
              payload !! k = fetched_example !! k).
Proof.
  split; [reflexivity|].
  apply (payload_has_no_readonly_field fetched_example (VStr "Hello.")).
  reflexivity.
Defined.

(** The end-to-end scenario of the specification. *)
Example end_to_end_payload :
  prepare_update_payload (VDict fetched_example) (VStr "Hello.")
  = Ok (<["name" := VStr "Blueprint Builder"]>
       (<["temperature" := VFloat 4604480259023595110]>
       (<["agent_instructions" := VStr "Hello."]>
       (<["response_format" := VDict {["type" := VStr "json_object"]}]>
       (<["features" := VList [SHORT_TERM_MEMORY_CONFIG]]> ∅))))).
Proof. vm_compute. reflexivity. Qed.

(** C6: on a configuration that is already reconciled and carries no
    server-owned field, the payload is the configuration itself with
    [agent_instructions] set to the loaded text. *)
Theorem reconciled_payload_roundtrip
    (current : gmap string value) (system_prompt : value) :
  current !! "response_format" = Some (VDict {["type" := VStr "json_object"]}) →
  current !! "features" = Some (VList [SHORT_TERM_MEMORY_CONFIG]) →
  (∀ k, k ∈ ["_id"; "created_at"; "updated_at"; "api_key"; "version"] →
        current !! k = None) →
  prepare_update_payload (VDict current) system_prompt
  = Ok (<["agent_instructions" := system_prompt]> current).
Proof.
  intros Hrf Hfs Hro.
  rewrite (prepare_update_payload_dicts current system_prompt
             [<["type" := VStr "SHORT_TERM_MEMORY"]>
              (<["config" := VDict {["message_count" := VInt 20]}]>
              (<["priority" := VInt 0]> ∅))])
    by (by rewrite Hfs).
  f_equal.
  assert (strip_readonly current = current) as ->.
  { apply map_filter_id. intros k v Hk Hin. simpl in Hin.
    specialize (Hro k Hin). congruence. }
  change (List.filter non_memory _ ++ _) with [SHORT_TERM_MEMORY_CONFIG].
  apply map_eq. intros k.
  destruct (decide (k = "features")) as [->|?].
  { rewrite lookup_insert_eq, lookup_insert_ne by done. by rewrite Hfs. }
  rewrite lookup_insert_ne by done.
  destruct (decide (k = "agent_instructions")) as [->|?].
  { by rewrite !lookup_insert_eq. }
  rewrite !(lookup_insert_ne _ "agent_instructions") by done.
  destruct (decide (k = "response_format")) as [->|?].
  { rewrite lookup_insert_eq. by rewrite Hrf. }
  by rewrite lookup_insert_ne.
Qed.

Lemma reconciled_payload_roundtrip_witness :
  reconciled_example !! "response_format"
    = Some (VDict {["type" := VStr "json_object"]})
  ∧ reconciled_example !! "features" = Some (VList [SHORT_TERM_MEMORY_CONFIG])
  ∧ prepare_update_payload (VDict reconciled_example) (VStr "Hello.")
    = Ok (<["agent_instructions" := VStr "Hello."]> reconciled_example).
Proof.
  split; [reflexivity|]. split; [reflexivity|].
  apply (reconciled_payload_roundtrip reconciled_example (VStr "Hello."));
    [reflexivity|reflexivity|].
  intros k Hk.
  repeat (apply elem_of_cons in Hk as [->|Hk]; [reflexivity|]).
  by apply elem_of_nil in Hk.
Defined.

(** ** Entries without a memory type, and a configuration without features *)

Lemma non_memory_outside (d : gmap string value) :
  (∀ s, d !! "type" = Some (VStr s) →
        s ∉ ["memory"; "SHORT_TERM_MEMORY"; "STRUCTURED_MEMORY"]) →
  non_memory (VDict d) = true.
Proof.
  intros Hd. unfold non_memory, memory_kind.
  destruct (d !! "type") as [[]|]; try done.
  apply negb_true_iff, bool_decide_eq_false. by apply Hd.
Qed.

(** C10: an entry with no [type] key, or with a type that is none of the
    three memory kinds, is kept by the merge where it stood; and a fetched
    configuration with no [features] key gets a feature list that is the
    fixed short-term-memory entry alone. *)
Theorem untyped_entry_kept_and_absent_features
    (L1 L2 : list (gmap string value)) (d current : gmap string value)
    (system_prompt : value) :
  (∀ s, d !! "type" = Some (VStr s) →
        s ∉ ["memory"; "SHORT_TERM_MEMORY"; "STRUCTURED_MEMORY"]) →
  current !! "features" = None →
  memory_kind (VDict d) = false
  ∧ ensure_short_term_memory (VList (VDict <$> L1 ++ d :: L2))
    = Ok (VList (List.filter non_memory (VDict <$> L1)
                 ++ VDict d :: List.filter non_memory (VDict <$> L2)
                 ++ [SHORT_TERM_MEMORY_CONFIG]))
  ∧ ∃ payload,
      prepare_update_payload (VDict current) system_prompt = Ok payload
      ∧ payload !! "features" = Some (VList [SHORT_TERM_MEMORY_CONFIG]).
Proof.
  intros Hd Hnone. pose proof (non_memory_outside d Hd) as Hnm.
  split_and!.
  - unfold non_memory in Hnm. by apply negb_true_iff.
  - unfold ensure_short_term_memory. cbn [Py.iter mbind result_bind].
    rewrite drop_memory_features_filter.
    rewrite fmap_app, fmap_cons, List.filter_app. cbn [List.filter].
    rewrite Hnm. cbn [mbind result_bind]. by rewrite <- app_assoc.
  - eexists. split.
    + apply (prepare_update_payload_dicts current system_prompt []).
      by rewrite Hnone.
    + by rewrite lookup_insert_eq.
Qed.

Lemma untyped_entry_kept_and_absent_features_witness :
  (∀ s, ({["priority" := VInt 5]} : gmap string value) !! "type" = Some (VStr s) →
        s ∉ ["memory"; "SHORT_TERM_MEMORY"; "STRUCTURED_MEMORY"])
  ∧ ({["name" := VStr "Blueprint Builder"]} : gmap string value) !! "features" = None
  ∧ ensure_short_term_memory
      (VList (VDict <$> [ {["type" := VStr "memory"]} ]
                        ++ {["priority" := VInt 5]} :: []))
    = Ok (VList [VDict {["priority" := VInt 5]}; SHORT_TERM_MEMORY_CONFIG]).
Proof.
  split; [intros s Hs; discriminate Hs|]. split; [reflexivity|].
  destruct (untyped_entry_kept_and_absent_features
              [ {["type" := VStr "memory"]} ] [] {["priority" := VInt 5]}
              {["name" := VStr "Blueprint Builder"]} VNone)
    as (_ & Hkept & _);
    [intros s Hs; discriminate Hs|reflexivity|].
  exact Hkept.
Defined.

(** ** Running a script

    Equations that run a script one step at a time, keeping what is still
    to run folded. *)

Lemma bind_run {A B} (m : script A) (k : A → script B) env st :
  (m ≫= k) env st
  = match m env st with
    | (Ok a, st') => k a env st'
    | (Raise e, st') => (Raise e, st')
    end.
Proof. reflexivity. Qed.

Lemma lift_run {A} (r : result A) env st : lift r env st = (r, st).
Proof. reflexivity. Qed.

Lemma raise_run {A} (e : exn) env st : raise (A:=A) e env st = (Raise e, st).
Proof. reflexivity. Qed.

Lemma sys_exit_run {A} (code : Z) env st :
  sys_exit (A:=A) code env st = (Raise (SystemExit code), st).
Proof. reflexivity. Qed.

Lemma ret_run {A} (a : A) env st : mret (M:=script) a env st = (Ok a, st).
Proof. reflexivity. Qed.

Lemma ask_run env st : ask env st = (Ok env, st).
Proof. reflexivity. Qed.

Lemma print_run l env st :
  print l env st = (Ok tt, {| sent := sent st; stdout := stdout st ++ [l] |}).
Proof. reflexivity. Qed.

Lemma send_run r env st :
  send r env st
  = match remote env (sent st) r with
    | Responded resp =>
        (Ok resp, {| sent := sent st ++ [r]; stdout := stdout st |})
    | Unreachable =>
        (Raise TransportError, {| sent := sent st ++ [r]; stdout := stdout st |})
    end.
Proof. reflexivity. Qed.

Lemma raise_for_status_run resp env st :
  raise_for_status resp env st
  = (if is_success resp then Ok tt else Raise (HTTPStatusError (status_code resp)),
     st).
Proof. unfold raise_for_status, is_success. by destruct (_ && _). Qed.

Lemma response_json_run resp env st :
  response_json resp env st
  = (match json_body resp with Some v => Ok v | None => Raise JSONDecodeError end,
     st).
Proof. unfold response_json. by destruct (json_body resp). Qed.

Create Rewrite HintDb script.
#[local] Hint Rewrite @bind_run @lift_run @raise_run @sys_exit_run @ret_run
  ask_run print_run raise_for_status_run response_json_run : script.

Ltac run_script := repeat (autorewrite with script; cbn [sent stdout initial]).

(** [load_system_prompt_from_yaml] leaves the state as it found it. *)
Lemma load_run env st :
  load_system_prompt_from_yaml env st = (loaded env, st).
Proof.
  unfold loaded, load_system_prompt_from_yaml. run_script.
  destruct (yaml env) as [| | |data]; run_script; try reflexivity.
  destruct (Py.get data _ _) as [spec|]; run_script; [|reflexivity].
  destruct (Py.get spec _ _) as [instructions|]; run_script; [|reflexivity].
  by destruct (Py.truthy instructions).
Qed.

Lemma loaded_absent env : yaml env = Absent → loaded env = Raise FileNotFoundError.
Proof. unfold loaded, load_system_prompt_from_yaml. run_script. by intros ->. Qed.

Lemma loaded_missing env data :
  yaml env = Document data → instructions_missing data = true →
  loaded env = Raise ValueError.
Proof.
  unfold loaded, load_system_prompt_from_yaml, instructions_missing.
  run_script. intros -> Hm.
  destruct data as [| | | | | |d]; try discriminate. cbn [Py.get].
  run_script.
  destruct (d !! "spec") as [spec|]; cbn [default from_option id].
  - destruct spec as [| | | | | |spec]; try discriminate. cbn [Py.get].
    run_script.
    destruct (spec !! "instructions") as [[]|]; try discriminate;
      cbn [default from_option id].
    + apply String.eqb_eq in Hm as ->. reflexivity.
    + reflexivity.
  - cbn [Py.get]. run_script. rewrite lookup_empty. reflexivity.
Qed.

(** What [main] does up to the end of step 1. *)
Lemma main_load_fails env e :
  loaded env = Raise e →
  ∃ st, main env initial = (Raise e, st) ∧ sent st = [].
Proof.
  intros Hload. unfold main. run_script. rewrite load_run, Hload.
  eexists. split; reflexivity.
Qed.

(** ** Failing before the network *)

(** When the declarative file is absent, or is a mapping in which [spec] is
    missing or is a mapping whose [instructions] is missing or the empty
    string, [main] raises the error of that case ([FileNotFoundError],
    [ValueError]) and ends with a non-zero status having sent no request
    at all. *)
Theorem missing_instructions_no_request (env : environment) :
  yaml env = Absent
  ∨ (∃ data, yaml env = Document data ∧ instructions_missing data = true) →
  ∃ st,
    main env initial
    = (Raise (match yaml env with
              | Absent => FileNotFoundError
              | _ => ValueError
              end), st)
    ∧ sent st = []
    ∧ (run env).1 = 1
    ∧ sent (run env).2 = [].
Proof.
  intros Hy.
  assert (∃ st, main env initial
                = (Raise (match yaml env with
                          | Absent => FileNotFoundError
                          | _ => ValueError
                          end), st) ∧ sent st = []) as (st & Hmain & Hsent).
  { apply main_load_fails.
    destruct Hy as [Habs|(data & Hdoc & Hmiss)].
    - rewrite Habs. by apply loaded_absent.
    - rewrite Hdoc. by eapply loaded_missing. }
  exists st. unfold run. rewrite Hmain.
  split_and!; [done|done|by destruct (yaml env)|done].
Qed.

Lemma missing_instructions_no_request_witness :
  (yaml empty_instructions_env = Absent
   ∨ ∃ data, yaml empty_instructions_env = Document data
             ∧ instructions_missing data = true)
  ∧ sent (run empty_instructions_env).2 = [].
Proof.
  assert (Hy : ∃ data, yaml empty_instructions_env = Document data
                       ∧ instructions_missing data = true).
  { eexists. split; reflexivity. }
  split; [by right|].
  destruct (missing_instructions_no_request empty_instructions_env
              (or_intror Hy))
    as (st & _ & _ & _ & Hsent).
  exact Hsent.
Defined.

(** ** A failed fetch *)

Lemma get_current_agent_run env st :
  get_current_agent env st
  = match remote env (sent st) (get_request env) with
    | Responded resp =>
        (if is_success resp
         then match json_body resp with
              | Some v => Ok v
              | None => Raise JSONDecodeError
              end
         else Raise (HTTPStatusError (status_code resp)),
         {| sent := sent st ++ [get_request env]; stdout := stdout st |})
    | Unreachable =>
        (Raise TransportError,
         {| sent := sent st ++ [get_request env]; stdout := stdout st |})
    end.
Proof.
  unfold get_current_agent. run_script. rewrite send_run.
  fold (get_request env).
  destruct (remote env (sent st) (get_request env)) as [resp|]; [|done].
  run_script. by destruct (is_success resp).
Qed.

Lemma update_agent_run payload env st :
  update_agent payload env st
  = match remote env (sent st) (put_request env payload) with
    | Responded resp =>
        (if is_success resp
         then match json_body resp with
              | Some v => Ok v
              | None => Raise JSONDecodeError
              end
         else Raise (HTTPStatusError (status_code resp)),
         {| sent := sent st ++ [put_request env payload]; stdout := stdout st |})
    | Unreachable =>
        (Raise TransportError,
         {| sent := sent st ++ [put_request env payload]; stdout := stdout st |})
    end.
Proof.
  unfold update_agent. run_script. rewrite send_run.
  fold (put_request env payload).
  destruct (remote env (sent st) (put_request env payload)) as [resp|]; [|done].
  run_script. by destruct (is_success resp).
Qed.

(** No exception of the loading step is a [SystemExit]. *)
Lemma loaded_exit_status env e :
  loaded env = Raise e → exit_status (Raise e : result unit) = 1.
Proof.
  unfold loaded, load_system_prompt_from_yaml. run_script.
  destruct (yaml env) as [| | |data]; run_script; try by intros [= <-].
  destruct data; cbn [Py.get]; run_script; try by intros [= <-].
  destruct (default _ _); cbn [Py.get]; run_script; try by intros [= <-].
  destruct (Py.truthy _); run_script; [done|by intros [= <-]].
Qed.

Lemma len_exit_status (v : value) e :
  Py.len v = Raise e → exit_status (Raise e : result unit) = 1.
Proof. destruct v; try done; by intros [= <-]. Qed.

(** C5: when the first fetch is answered with a status outside 200..299,
    [main] aborts with an exception and a non-zero status, and every
    request it has sent is a GET: no PUT is issued.  When the prompt was
    loaded, the exception is the status error of that fetch and the fetch
    is the only request. *)
Theorem failed_fetch_sends_no_put (env : environment) (resp : response) :
  remote env [] (get_request env) = Responded resp →
  (status_code resp < 200 ∨ 299 < status_code resp) →
  ∃ e st,
    main env initial = (Raise e, st)
    ∧ (run env).1 = 1
    ∧ (∀ r, r ∈ sent st → method r ≠ PUT)
    ∧ (∀ prompt n, loaded env = Ok prompt → Py.len prompt = Ok n →
         e = HTTPStatusError (status_code resp)
         ∧ sent st = [get_request env]).
Proof.
  intros Hget Hstatus.
  assert (Hfail : is_success resp = false).
  { unfold is_success. apply andb_false_iff.
    destruct Hstatus; [left|right]; by apply Z.leb_gt. }
  unfold run.
  destruct (loaded env) as [prompt|e] eqn:Hload.
  { unfold main. run_script. rewrite load_run, Hload. run_script.
    destruct (Py.len prompt) as [n|e] eqn:Hlen; run_script.
    - rewrite get_current_agent_run. cbn [sent stdout]. rewrite Hget, Hfail.
      eexists _, _. split; [reflexivity|]. cbn [sent app].
      split_and!; [done| |].
      + intros r ->%list_elem_of_singleton. done.
      + by intros ? ? _ _.
    - eexists _, _. split; [reflexivity|]. cbn [sent fst].
      split_and!.
      + by eapply len_exit_status.
      + intros r Hr. by apply elem_of_nil in Hr.
      + intros ? ? [= <-] ?. congruence. }
  destruct (main_load_fails env e Hload) as (st & Hmain & Hsent).
  exists e, st. rewrite Hmain, Hsent.
  split_and!; [done|by eapply loaded_exit_status| |done].
  intros r Hr. by apply elem_of_nil in Hr.
Qed.

Lemma failed_fetch_sends_no_put_witness :
  remote forbidden_env [] (get_request forbidden_env)
    = Responded forbidden_response
  ∧ (status_code forbidden_response < 200 ∨ 299 < status_code forbidden_response)
  ∧ (run forbidden_env).1 = 1
  ∧ sent (run forbidden_env).2 = [get_request forbidden_env].
Proof.
  split; [reflexivity|].
  assert (Hstatus : status_code forbidden_response < 200
                    ∨ 299 < status_code forbidden_response)
    by (right; reflexivity).
  split; [exact Hstatus|].
  destruct (failed_fetch_sends_no_put forbidden_env forbidden_response
              eq_refl Hstatus)
    as (e & st & Hmain & Hexit & _ & Hsent).
  split; [exact Hexit|].
  unfold run. rewrite Hmain.
  change (sent st = [get_request forbidden_env]).
  by destruct (Hsent (VStr "Hello.") 6 eq_refl eq_refl) as [_ ->].
Defined.

(** ** What a script sends *)

Section sends_only.
Context (P : request → Prop) (env : environment).

Lemma sends_only_nothing {A} (m : script A) :
  (∀ st, sent (m env st).2 = sent st) → sends_only P m env.
Proof. intros H st. exists []. by rewrite H, app_nil_r. Qed.

Lemma sends_only_ret {A} (a : A) : sends_only P (mret a) env.
Proof. by apply sends_only_nothing. Qed.

Lemma sends_only_lift {A} (r : result A) : sends_only P (lift r) env.
Proof. by apply sends_only_nothing. Qed.

Lemma sends_only_raise {A} (e : exn) : sends_only P (raise (A:=A) e) env.
Proof. by apply sends_only_nothing. Qed.

Lemma sends_only_print l : sends_only P (print l) env.
Proof. by apply sends_only_nothing. Qed.

Lemma sends_only_ask : sends_only P ask env.
Proof. by apply sends_only_nothing. Qed.

Lemma sends_only_bind {A B} (m : script A) (k : A → script B) :
  sends_only P m env → (∀ a, sends_only P (k a) env) →
  sends_only P (m ≫= k) env.
Proof.
  intros Hm Hk st. rewrite bind_run.
  destruct (Hm st) as (new1 & Hsent1 & HP1).
  destruct (m env st) as [[a|e] st1]; simpl in *.
  - destruct (Hk a st1) as (new2 & Hsent2 & HP2).
    exists (new1 ++ new2). rewrite Hsent2, Hsent1, app_assoc.
    split; [done|]. by apply Forall_app.
  - by exists new1.
Qed.

(** After a pure step the rest runs knowing what the step returned. *)
Lemma sends_only_bind_lift {A B} (r : result A) (k : A → script B) :
  (∀ a, r = Ok a → sends_only P (k a) env) →
  sends_only P (lift r ≫= k) env.
Proof.
  intros Hk st. rewrite bind_run, lift_run.
  destruct r as [a|e]; [by apply Hk|].
  exists []. by rewrite app_nil_r.
Qed.

Lemma sends_only_get_current_agent :
  P (get_request env) → sends_only P get_current_agent env.
Proof.
  intros HP st. rewrite get_current_agent_run.
  exists [get_request env].
  split; [|by apply Forall_singleton].
  by destruct (remote env _ _).
Qed.

Lemma sends_only_update_agent payload :
  P (put_request env payload) → sends_only P (update_agent payload) env.
Proof.
  intros HP st. rewrite update_agent_run.
  exists [put_request env payload].
  split; [|by apply Forall_singleton].
  by destruct (remote env _ _).
Qed.

Lemma sends_only_load : sends_only P load_system_prompt_from_yaml env.
Proof. apply sends_only_nothing. intros st. by rewrite load_run. Qed.

Lemma sends_only_verify updated : sends_only P (verify updated) env.
Proof.
  unfold verify.
  apply sends_only_bind; [apply sends_only_lift|intros is_json].
  apply sends_only_bind.
  { destruct is_json; cbn [negb]; [apply sends_only_ret|].
    apply sends_only_bind; [apply sends_only_print|intros _].
    apply sends_only_ret. }
  intros success.
  apply sends_only_bind; [apply sends_only_lift|intros has].
  apply sends_only_bind.
  { destruct has; cbn [negb]; [apply sends_only_ret|].
    apply sends_only_bind; [apply sends_only_print|intros _].
    apply sends_only_ret. }
  intros success'.
  apply sends_only_bind; [|intros _; apply sends_only_print].
  destruct success'; [apply sends_only_print|apply sends_only_ret].
Qed.

(** [main] sends what [get_current_agent] sends and the PUT of a payload
    that [prepare_update_payload] returned. *)
Lemma sends_only_main :
  P (get_request env) →
  (∀ current system_prompt payload,
      prepare_update_payload current system_prompt = Ok payload →
      P (put_request env (VDict payload))) →
  sends_only P main env.
Proof.
  intros Hget Hput. unfold main.
  repeat first
    [ apply sends_only_print
    | apply sends_only_ask
    | apply sends_only_load
    | apply sends_only_verify
    | by apply sends_only_get_current_agent
    | apply sends_only_update_agent; by eapply Hput
    | apply sends_only_bind_lift; intros ? ?
    | apply sends_only_bind; [|intros ?] ].
Qed.

End sends_only.

Lemma run_sent env : sent (run env).2 = sent (main env initial).2.
Proof. unfold run. by destruct (main env initial). Qed.

Lemma run_exit env : (run env).1 = exit_status (main env initial).1.
Proof. unfold run. by destruct (main env initial). Qed.

(** What [main] has sent once the prompt is loaded: the fetch comes
    first. *)
Lemma main_sends_get_first env prompt n :
  loaded env = Ok prompt → Py.len prompt = Ok n →
  ∃ rest, sent (main env initial).2 = get_request env :: rest.
Proof.
  intros Hload Hlen. unfold main. run_script.
  rewrite load_run, Hload. run_script. rewrite Hlen. run_script.
  rewrite get_current_agent_run. cbn [sent stdout app].
  destruct (remote env [] (get_request env)) as [resp|]; [|by exists []].
  destruct (is_success resp); [|by exists []].
  destruct (json_body resp) as [current|]; [|by exists []].
  lazymatch goal with
  | |- ∃ rest, sent (?k env ?st).2 = _ =>
      assert (Hk : sends_only (λ _, True) k env)
  end.
  { repeat first
      [ apply sends_only_print
      | apply sends_only_verify
      | by apply sends_only_get_current_agent
      | by apply sends_only_update_agent
      | apply sends_only_bind_lift; intros ? ?
      | apply sends_only_bind; [|intros ?] ]. }
  lazymatch goal with
  | |- ∃ rest, sent (_ env ?st).2 = _ => destruct (Hk st) as (new & -> & _)
  end.
  by exists new.
Qed.

(** ** The credential *)

Lemma module_body_unset env :
  environ env !! "LYZR_API_KEY" = None →
  CreateReadmeAgent.module_body env initial
  = (Raise (SystemExit 1), {| sent := []; stdout := missing_key_lines |}).
Proof.
  intros Hkey. unfold CreateReadmeAgent.module_body. run_script.
  rewrite Hkey. unfold CreateReadmeAgent.missing_api_key. by run_script.
Qed.

Lemma module_body_set env key :
  environ env !! "LYZR_API_KEY" = Some key → key ≠ "" →
  CreateReadmeAgent.module_body env initial
  = CreateReadmeAgent.create_agent key env initial.
Proof.
  intros Hkey Hne. unfold CreateReadmeAgent.module_body. run_script.
  rewrite Hkey. apply String.eqb_neq in Hne as ->. by run_script.
Qed.

(** C8: with the credential variable unset, the creation script prints its
    error, sends nothing and ends with status 1, while the reconciliation
    script takes the literal of its source for the key, goes on to the
    fetch, and sends every request of the run with that literal in its
    [X-API-Key] header. *)
Theorem unset_credential (env : environment) :
  environ env !! "LYZR_API_KEY" = None →
  CreateReadmeAgent.run env
  = (1, {| sent := []; stdout := missing_key_lines |})
  ∧ API_KEY env = API_KEY_DEFAULT
  ∧ (∀ r, r ∈ sent (run env).2 →
          headers r !! "X-API-Key" = Some API_KEY_DEFAULT)
  ∧ (∀ prompt n, loaded env = Ok prompt → Py.len prompt = Ok n →
       ∃ rest, sent (run env).2 = get_request env :: rest).
Proof.
  intros Hkey.
  assert (Hdefault : API_KEY env = API_KEY_DEFAULT).
  { unfold API_KEY. by rewrite Hkey. }
  split_and!.
  - unfold CreateReadmeAgent.run. by rewrite module_body_unset.
  - done.
  - intros r Hr. rewrite run_sent in Hr.
    destruct (sends_only_main
                (λ r, headers r !! "X-API-Key" = Some API_KEY_DEFAULT) env)
      with (st := initial) as (new & Hsent & Hall).
    + cbn. unfold agent_headers. by rewrite lookup_insert_eq, Hdefault.
    + intros. cbn. unfold agent_headers.
      by rewrite lookup_insert_eq, Hdefault.
    + rewrite Hsent in Hr. cbn in Hr.
      by eapply Forall_forall in Hall.
  - intros prompt n Hload Hlen. rewrite run_sent.
    by eapply main_sends_get_first.
Qed.

Lemma unset_credential_witness :
  environ stale_env !! "LYZR_API_KEY" = None
  ∧ CreateReadmeAgent.run stale_env
    = (1, {| sent := []; stdout := missing_key_lines |})
  ∧ ∀ r, r ∈ sent (run stale_env).2 →
         headers r !! "X-API-Key" = Some API_KEY_DEFAULT.
Proof.
  split; [reflexivity|].
  destruct (unset_credential stale_env eq_refl) as (Hcreate & _ & Hupdate & _).
  by split.
Defined.

(** ** The creation procedure *)

Lemma create_agent_run key env :
  CreateReadmeAgent.create_agent key env initial
  = match remote env [] (post_request key) with
    | Responded resp =>
        if Z.eqb (status_code resp) 200 then
          match json_body resp with
          | Some result =>
              match Py.get result "agent_id" VNone with
              | Ok agent_id =>
                  (Ok agent_id,
                   {| sent := [post_request key];
                      stdout := created_lines agent_id |})
              | Raise e =>
                  (Raise e, {| sent := [post_request key]; stdout := [] |})
              end
          | None =>
              (Raise JSONDecodeError,
               {| sent := [post_request key]; stdout := [] |})
          end
        else
          (Raise (SystemExit 1),
           {| sent := [post_request key];
              stdout := [[Lit "Error creating agent: ";
                          FmtInt (status_code resp)];
                         [Lit (text resp)]] |})
    | Unreachable =>
        (Raise TransportError, {| sent := [post_request key]; stdout := [] |})
    end.
Proof.
  unfold CreateReadmeAgent.create_agent. run_script. rewrite send_run.
  fold (post_request key). cbn [sent stdout initial app].
  destruct (remote env [] (post_request key)) as [resp|]; [|done].
  destruct (Z.eqb (status_code resp) 200); cbn [negb]; run_script; [|done].
  destruct (json_body resp) as [result|]; [|done].
  destruct (Py.get result "agent_id" VNone) as [agent_id|e]; [|done].
  by run_script.
Qed.

(** C7: when the submission is answered with a status other than 200, which
    every status outside 200..299 is, the creation procedure prints the
    status code and the raw body and ends with status 1; it ends with
    status 0 only when the status is 200, and then it has printed the
    [agent_id] of the response. *)
Theorem create_agent_reports_failure
    (env : environment) (key : string) (resp : response) :
  environ env !! "LYZR_API_KEY" = Some key → key ≠ "" →
  remote env [] (post_request key) = Responded resp →
  (status_code resp ≠ 200 →
     CreateReadmeAgent.run env
     = (1, {| sent := [post_request key];
              stdout := [[Lit "Error creating agent: ";
                          FmtInt (status_code resp)];
                         [Lit (text resp)]] |}))
  ∧ ((status_code resp < 200 ∨ 299 < status_code resp) →
     (CreateReadmeAgent.run env).1 = 1)
  ∧ ((CreateReadmeAgent.run env).1 = 0 →
     status_code resp = 200
     ∧ ∃ result agent_id,
         json_body resp = Some result
         ∧ Py.get result "agent_id" VNone = Ok agent_id
         ∧ stdout (CreateReadmeAgent.run env).2 = created_lines agent_id).
Proof.
  intros Hkey Hne Hpost.
  assert (Hrun : CreateReadmeAgent.run env
                 = let '(r, st) := CreateReadmeAgent.create_agent key env initial
                   in (exit_status r, st)).
  { unfold CreateReadmeAgent.run. by rewrite (module_body_set env key). }
  rewrite Hrun, create_agent_run, Hpost.
  split_and!.
  - intros H200. by destruct (Z.eqb_spec (status_code resp) 200).
  - intros Hout. destruct (Z.eqb_spec (status_code resp) 200); [lia|done].
  - destruct (Z.eqb_spec (status_code resp) 200) as [H200|H200].
    + intros Hexit. split; [done|].
      destruct (json_body resp) as [result|]; [|done].
      destruct (Py.get result "agent_id" VNone) as [agent_id|e] eqn:Hid.
      * by exists result, agent_id.
      * destruct result; cbn in Hid; simplify_eq; done.
    + done.
Qed.

Lemma create_agent_reports_failure_witness :
  environ refused_env !! "LYZR_API_KEY" = Some "sk-test"
  ∧ "sk-test" ≠ ""
  ∧ remote refused_env [] (post_request "sk-test") = Responded forbidden_response
  ∧ CreateReadmeAgent.run refused_env
    = (1, {| sent := [post_request "sk-test"];
             stdout := [[Lit "Error creating agent: "; FmtInt 403];
                        [Lit "Forbidden"]] |}).
Proof.
  split; [reflexivity|]. split; [done|]. split; [reflexivity|].
  destruct (create_agent_reports_failure refused_env "sk-test"
              forbidden_response eq_refl ltac:(done) eq_refl)
    as (Hfail & _ & _).
  apply Hfail. done.
Defined.

(** A creation that succeeds. *)
Example create_agent_succeeds :
  CreateReadmeAgent.run
    (keyed_env "sk-test" (constant_service created_response))
  = (0, {| sent := [post_request "sk-test"];
           stdout := created_lines (VStr "6a01") |}).
Proof. vm_compute. reflexivity. Qed.

(** ** The verification step *)

Lemma main_split env st :
  main env st
  = match before_verify env st with
    | (Ok updated, st') => verify updated env st'
    | (Raise e, st') => (Raise e, st')
    end.
Proof.
  unfold main, before_verify.
  repeat
    (rewrite !bind_run;
     lazymatch goal with
     | |- match ?x with _ => _ end
          = match (match ?x with _ => _ end) with _ => _ end =>
         destruct x as [[?|?] ?]; [|reflexivity]
     end).
  reflexivity.
Qed.

Lemma verify_run updated is_json has_memory env st :
  response_format_is_json updated = Ok is_json →
  has_short_term_memory updated = Ok has_memory →
  verify updated env st
  = (Ok tt, {| sent := sent st;
               stdout := stdout st ++ verify_lines is_json has_memory |}).
Proof.
  intros Hjson Hmem. unfold verify, verify_lines. run_script.
  rewrite Hjson. destruct is_json; cbn [negb]; run_script;
    rewrite Hmem; destruct has_memory; cbn [negb andb]; run_script;
    by rewrite <- ?app_assoc.
Qed.

(** C3, as the code has it: the two checks decide what is printed, a
    warning for each one that fails and the success line when both pass,
    and not the exit status, which is 0 once the re-fetched configuration
    is one the checks can be evaluated on. *)
Theorem verification_is_advisory
    (env : environment) (updated : value) (st : state)
    (is_json has_memory : bool) :
  before_verify env initial = (Ok updated, st) →
  response_format_is_json updated = Ok is_json →
  has_short_term_memory updated = Ok has_memory →
  run env
  = (0, {| sent := sent st;
           stdout := stdout st ++ verify_lines is_json has_memory |}).
Proof.
  intros Hbefore Hjson Hmem. unfold run.
  rewrite main_split, Hbefore.
  by rewrite (verify_run updated is_json has_memory).
Qed.

Lemma verification_is_advisory_witness :
  response_format_is_json (VDict fetched_example) = Ok false
  ∧ has_short_term_memory (VDict fetched_example) = Ok false
  ∧ ∃ st,
      before_verify stale_env initial = (Ok (VDict fetched_example), st)
      ∧ run stale_env
        = (0, {| sent := sent st;
                 stdout := stdout st ++ verify_lines false false |}).
Proof.
  split; [reflexivity|]. split; [reflexivity|].
  eexists. split; [vm_compute; reflexivity|].
  apply (verification_is_advisory stale_env (VDict fetched_example) _ false false);
    [vm_compute; reflexivity|reflexivity|reflexivity].
Defined.

Lemma stale_run :
  refetched stale_env = Some (VDict fetched_example)
  ∧ response_format_is_json (VDict fetched_example) = Ok false
  ∧ has_short_term_memory (VDict fetched_example) = Ok false
  ∧ (run stale_env).1 = 0.
Proof. vm_compute. by split_and!. Qed.

(** C3 as it was stated fails: against a service that keeps returning the
    text-mode configuration with a structured memory, both checks fail and
    the exit status is 0. *)
Lemma exit_status_zero_with_failed_checks :
  ¬ exit_status_reflects_checks stale_env.
Proof.
  intros Hclaim. destruct stale_run as (Hre & Hjson & _ & Hexit).
  apply (Hclaim _ Hre) in Hexit as [Hok _]. congruence.
Qed.

(** ** The requests of a run, whatever the service does *)

Lemma prepare_update_payload_frame current system_prompt payload :
  prepare_update_payload current system_prompt = Ok payload →
  ∃ fetched : gmap string value,
    current = VDict fetched
    ∧ (∀ k, k ∈ readonly_fields → payload !! k = None)
    ∧ (∀ k, k ∉ readonly_fields → k ∉ overwritten_fields →
            payload !! k = fetched !! k).
Proof.
  unfold prepare_update_payload.
  destruct current as [| | | | | |fetched]; try done.
  cbn [Py.items mbind result_bind]. fold (strip_readonly fetched).
  destruct (ensure_short_term_memory _) as [features|]; [|done].
  intros [= <-]. exists fetched. split_and!; [done| |].
  - intros k Hk.
    rewrite !lookup_insert_ne; [by apply strip_readonly_lookup_readonly|..];
      intros <-; unfold readonly_fields in Hk; literal_not_in Hk.
  - intros k Hk Hover. unfold overwritten_fields in Hover.
    apply not_elem_of_cons in Hover as [? Hover].
    apply not_elem_of_cons in Hover as [? Hover].
    apply not_elem_of_cons in Hover as [? _].
    rewrite !lookup_insert_ne by done.
    by apply strip_readonly_lookup.
Qed.

(** Every PUT of a run carries a payload that [prepare_update_payload]
    made of a fetched configuration: no server-owned key in it, and the
    keys that are not overwritten as they were fetched. *)
Lemma put_has_no_readonly_field env r :
  r ∈ sent (run env).2 → method r = PUT →
  ∃ fetched payload : gmap string value,
    json r = Some (VDict payload)
    ∧ (∀ k, k ∈ readonly_fields → payload !! k = None)
    ∧ (∀ k, k ∉ readonly_fields → k ∉ overwritten_fields →
            payload !! k = fetched !! k).
Proof.
  rewrite run_sent. intros Hr.
  destruct (sends_only_main
              (λ r, method r = PUT →
                    ∃ fetched payload : gmap string value,
                      json r = Some (VDict payload)
                      ∧ (∀ k, k ∈ readonly_fields → payload !! k = None)
                      ∧ (∀ k, k ∉ readonly_fields → k ∉ overwritten_fields →
                              payload !! k = fetched !! k)) env)
    with (st := initial) as (new & Hsent & Hall).
  - done.
  - intros current system_prompt payload Hpayload _.
    destruct (prepare_update_payload_frame _ _ _ Hpayload)
      as (fetched & _ & Hro & Hframe).
    by exists fetched, payload.
  - rewrite Hsent in Hr. by eapply Forall_forall in Hall.
Qed.

(** Whatever makes the loading step fail, nothing has been sent. *)
Lemma load_failure_no_request env e :
  loaded env = Raise e → (run env).1 = 1 ∧ sent (run env).2 = [].
Proof.
  intros Hload. destruct (main_load_fails env e Hload) as (st & Hmain & Hsent).
  unfold run. rewrite Hmain. split; [by eapply loaded_exit_status|done].
Qed.

(** * Further properties *)

(** ** The feature merge, again *)

Lemma filter_non_memory_app_short_term (fs : list value) :
  List.filter non_memory (List.filter non_memory fs ++ [SHORT_TERM_MEMORY_CONFIG])
  = List.filter non_memory fs.
Proof.
  rewrite List.filter_app, filter_non_memory_idemp. cbn. by rewrite app_nil_r.
Qed.

(** What the comprehension keeps is a list of dicts. *)
Lemma drop_memory_features_dicts (fs kept : list value) :
  drop_memory_features fs = Ok kept →
  ∃ L : list (gmap string value),
    fs = VDict <$> L ∧ kept = List.filter non_memory (VDict <$> L).
Proof.
  revert kept. induction fs as [|f fs IH]; intros kept.
  - intros [= <-]. by exists [].
  - cbn [drop_memory_features].
    destruct f as [| | | | | |d]; cbn [Py.get mbind result_bind]; try done.
    destruct (drop_memory_features fs) as [kept'|] eqn:Hfs; [|done].
    destruct (IH kept' eq_refl) as (L & -> & ->).
    intros [= <-]. exists (d :: L). split; [done|].
    rewrite in_memory_types_get. cbn [fmap list_fmap List.filter].
    change (non_memory (VDict d)) with (negb (memory_kind (VDict d))).
    by destruct (memory_kind (VDict d)).
Qed.

(** What a merge keeps, with the entry it appends, is a list of dicts. *)
Lemma merged_features_dicts (L : list (gmap string value)) :
  ∃ L' : list (gmap string value),
    List.filter non_memory (VDict <$> L) ++ [SHORT_TERM_MEMORY_CONFIG]
    = VDict <$> L'.
Proof.
  induction L as [|d L [L' IH]].
  - by eexists [_].
  - cbn [fmap list_fmap List.filter].
    destruct (non_memory (VDict d)); [|by exists L'].
    exists (d :: L'). cbn. by rewrite <- IH.
Qed.

(** Merging a merged list of dicts. *)
Lemma merge_of_merge (L : list (gmap string value)) :
  ensure_short_term_memory
    (VList (List.filter non_memory (VDict <$> L) ++ [SHORT_TERM_MEMORY_CONFIG]))
  = Ok (VList (List.filter non_memory (VDict <$> L)
               ++ [SHORT_TERM_MEMORY_CONFIG])).
Proof.
  unfold ensure_short_term_memory. cbn [Py.iter mbind result_bind].
  destruct (merged_features_dicts L) as [L' HL'].
  rewrite HL', drop_memory_features_filter.
  by rewrite <- HL', filter_non_memory_app_short_term.
Qed.

Lemma ensure_short_term_memory_inv (features out : value) :
  ensure_short_term_memory features = Ok out →
  ∃ L : list (gmap string value),
    out = VList (List.filter non_memory (VDict <$> L)
                 ++ [SHORT_TERM_MEMORY_CONFIG]).
Proof.
  unfold ensure_short_term_memory.
  destruct (Py.iter features) as [fs|]; [|done]. cbn [mbind result_bind].
  destruct (drop_memory_features fs) as [kept|] eqn:Hkept; [|done].
  intros [= <-].
  destruct (drop_memory_features_dicts fs kept Hkept) as (L & _ & ->).
  by exists L.
Qed.

(** The merge is idempotent: merging what a merge returned changes
    nothing. *)
Theorem ensure_short_term_memory_idempotent (features out : value) :
  ensure_short_term_memory features = Ok out →
  ensure_short_term_memory out = Ok out.
Proof.
  intros Hout. destruct (ensure_short_term_memory_inv _ _ Hout) as [L ->].
  apply merge_of_merge.
Qed.

Lemma ensure_short_term_memory_idempotent_witness :
  ensure_short_term_memory
    (VList [VDict {["type" := VStr "memory"]}; VDict {["type" := VStr "tool"]}])
  = Ok (VList [VDict {["type" := VStr "tool"]}; SHORT_TERM_MEMORY_CONFIG])
  ∧ ensure_short_term_memory
      (VList [VDict {["type" := VStr "tool"]}; SHORT_TERM_MEMORY_CONFIG])
    = Ok (VList [VDict {["type" := VStr "tool"]}; SHORT_TERM_MEMORY_CONFIG]).
Proof.
  split; [reflexivity|].
  apply (ensure_short_term_memory_idempotent
           (VList [VDict {["type" := VStr "memory"]};
                   VDict {["type" := VStr "tool"]}])).
  reflexivity.
Defined.

(** The merge succeeds on a list of dicts and, since they yield no element
    to call [get] on, on the empty string and the empty dict; on nothing
    else. *)
Theorem ensure_short_term_memory_succeeds_iff (features : value) :
  (∃ out, ensure_short_term_memory features = Ok out)
  ↔ (∃ L : list (gmap string value), features = VList (VDict <$> L))
    ∨ features = VStr "" ∨ features = VDict ∅.
Proof.
  split.
  - intros [out Hout]. unfold ensure_short_term_memory in Hout.
    destruct features as [| | | |s|fs|d]; try discriminate Hout.
    + destruct s as [|c s]; [by right; left|discriminate Hout].
    + left. cbn [Py.iter mbind result_bind] in Hout.
      destruct (drop_memory_features fs) as [kept|] eqn:Hkept; [|done].
      destruct (drop_memory_features_dicts fs kept Hkept) as (L & -> & _).
      by exists L.
    + right; right. cbn [Py.iter mbind result_bind] in Hout.
      destruct (map_to_list d) as [|[k v] kvs] eqn:Hd.
      * f_equal. by apply map_to_list_empty_iff.
      * discriminate Hout.
  - intros [[L ->]|[->| ->]].
    + eexists. unfold ensure_short_term_memory. cbn [Py.iter mbind result_bind].
      by rewrite drop_memory_features_filter.
    + by eexists.
    + eexists. unfold ensure_short_term_memory. cbn [Py.iter mbind result_bind].
      by rewrite map_to_list_empty.
Qed.

(** What cannot be iterated is a [TypeError]; what can but holds something
    that is no dict is an [AttributeError]. *)
Theorem ensure_short_term_memory_errors (features : value) (e : exn) :
  ensure_short_term_memory features = Raise e →
  match features with
  | VNone | VBool _ | VInt _ | VFloat _ => e = TypeError
  | _ => e = AttributeError
  end.
Proof.
  unfold ensure_short_term_memory.
  destruct features as [| | | |s|fs|d]; try by intros [= <-].
  - cbn [Py.iter mbind result_bind].
    destruct (drop_memory_features _) eqn:Hd; [done|].
    intros [= <-]. by eapply drop_memory_features_raises.
  - cbn [Py.iter mbind result_bind].
    destruct (drop_memory_features _) eqn:Hd; [done|].
    intros [= <-]. by eapply drop_memory_features_raises.
  - cbn [Py.iter mbind result_bind].
    destruct (drop_memory_features _) eqn:Hd; [done|].
    intros [= <-]. by eapply drop_memory_features_raises.
Qed.

Lemma ensure_short_term_memory_errors_witness :
  ensure_short_term_memory VNone = Raise TypeError
  ∧ TypeError = TypeError.
Proof.
  split; [reflexivity|].
  exact (ensure_short_term_memory_errors VNone TypeError eq_refl).
Defined.

(** ** The payload, again *)

Lemma prepare_update_payload_inv current system_prompt payload :
  prepare_update_payload current system_prompt = Ok payload →
  ∃ (fetched : gmap string value) (features : value),
    current = VDict fetched
    ∧ ensure_short_term_memory (default (VList []) (fetched !! "features"))
      = Ok features
    ∧ payload
      = <["features" := features]>
        (<["agent_instructions" := system_prompt]>
        (<["response_format" := VDict {["type" := VStr "json_object"]}]>
        (strip_readonly fetched))).
Proof.
  unfold prepare_update_payload.
  destruct current as [| | | | | |fetched]; try done.
  cbn [Py.items mbind result_bind]. fold (strip_readonly fetched).
  rewrite !lookup_insert_ne by done.
  rewrite strip_readonly_lookup by apply features_not_readonly.
  destruct (ensure_short_term_memory _) as [features|] eqn:Hf; [|done].
  intros [= <-]. by exists fetched, features.
Qed.

(** Reconciling a payload again gives the same payload, with the
    instructions of the second round. *)
Theorem prepare_update_payload_idempotent
    (current system_prompt system_prompt' : value)
    (payload : gmap string value) :
  prepare_update_payload current system_prompt = Ok payload →
  prepare_update_payload (VDict payload) system_prompt'
  = Ok (<["agent_instructions" := system_prompt']> payload).
Proof.
  intros Hpayload.
  destruct (prepare_update_payload_frame _ _ _ Hpayload) as (_ & _ & Hro & _).
  destruct (prepare_update_payload_inv _ _ _ Hpayload)
    as (fetched & features & _ & Hfeatures & Heq).
  assert (Hlookup : payload !! "features" = Some features).
  { rewrite Heq. apply lookup_insert_eq. }
  assert (Hrf : payload !! "response_format"
                = Some (VDict {["type" := VStr "json_object"]})).
  { rewrite Heq. rewrite !lookup_insert_ne by done. apply lookup_insert_eq. }
  unfold prepare_update_payload. cbn [Py.items mbind result_bind].
  fold (strip_readonly payload).
  assert (strip_readonly payload = payload) as ->.
  { apply map_filter_id. intros k v Hk Hin. simpl in Hin.
    specialize (Hro k Hin). congruence. }
  rewrite !lookup_insert_ne by done. rewrite Hlookup. cbn [default from_option id].
  destruct (ensure_short_term_memory_inv _ _ Hfeatures) as [L0 ->].
  rewrite merge_of_merge.
  cbn [mbind result_bind mret result_ret]. f_equal. apply map_eq. intros k.
  destruct (decide (k = "features")) as [->|?].
  { rewrite lookup_insert_eq, lookup_insert_ne by done. by rewrite Hlookup. }
  rewrite lookup_insert_ne by done.
  destruct (decide (k = "agent_instructions")) as [->|?].
  { by rewrite !lookup_insert_eq. }
  rewrite !(lookup_insert_ne _ "agent_instructions") by done.
  destruct (decide (k = "response_format")) as [->|?].
  { rewrite lookup_insert_eq. by rewrite Hrf. }
  by rewrite lookup_insert_ne.
Qed.

Lemma prepare_update_payload_idempotent_witness :
  ∃ payload,
    prepare_update_payload (VDict fetched_example) (VStr "Hello.") = Ok payload
    ∧ prepare_update_payload (VDict payload) (VStr "Again.")
      = Ok (<["agent_instructions" := VStr "Again."]> payload).
Proof.
  eexists. split; [vm_compute; reflexivity|].
  apply (prepare_update_payload_idempotent
           (VDict fetched_example) (VStr "Hello.") (VStr "Again.")).
  vm_compute. reflexivity.
Defined.

(** ** The merge and the checks *)

Lemma any_short_term_memory_dicts (L : list (gmap string value)) :
  any_short_term_memory (VDict <$> L)
  = Ok (existsb short_term_entry (VDict <$> L)).
Proof.
  induction L as [|d L IH]; [done|].
  cbn [fmap list_fmap any_short_term_memory Py.get mbind result_bind existsb
       mret result_ret].
  rewrite IH.
  assert (Py.eq_str (default VNone (d !! "type")) "SHORT_TERM_MEMORY"
          = short_term_entry (VDict d)) as ->.
  { unfold short_term_entry. by destruct (d !! "type") as [[]|]. }
  by destruct (short_term_entry (VDict d)).
Qed.

(** The second check on a list of dicts: some entry has the type
    [SHORT_TERM_MEMORY] itself; the two other memory kinds do not count. *)
Theorem has_short_term_memory_dicts
    (updated : gmap string value) (L : list (gmap string value)) :
  default (VList []) (updated !! "features") = VList (VDict <$> L) →
  has_short_term_memory (VDict updated)
  = Ok (existsb short_term_entry (VDict <$> L)).
Proof.
  intros Hf. unfold has_short_term_memory.
  cbn [Py.get mbind result_bind]. rewrite Hf. cbn [Py.iter].
  apply any_short_term_memory_dicts.
Qed.

Lemma has_short_term_memory_dicts_witness :
  default (VList []) (fetched_example !! "features")
  = VList (VDict <$> [<["type" := VStr "STRUCTURED_MEMORY"]>
                      (<["config" := VDict ∅]>
                      (<["priority" := VInt 1]> ∅))])
  ∧ has_short_term_memory (VDict fetched_example) = Ok false.
Proof.
  split; [reflexivity|].
  exact (has_short_term_memory_dicts fetched_example
           [<["type" := VStr "STRUCTURED_MEMORY"]>
            (<["config" := VDict ∅]> (<["priority" := VInt 1]> ∅))] eq_refl).
Defined.

(** The two checks on a payload. *)
Lemma checks_of_payload
    (current system_prompt : value) (payload : gmap string value) :
  prepare_update_payload current system_prompt = Ok payload →
  response_format_is_json (VDict payload) = Ok true
  ∧ has_short_term_memory (VDict payload) = Ok true.
Proof.
  intros Hpayload.
  destruct (prepare_update_payload_inv _ _ _ Hpayload)
    as (fetched & features & _ & Hfeatures & ->).
  split.
  - unfold response_format_is_json. cbn [Py.get mbind result_bind].
    rewrite !lookup_insert_ne by done. by rewrite lookup_insert_eq.
  - unfold ensure_short_term_memory in Hfeatures.
    destruct (Py.iter _) as [fs|]; [|done].
    cbn [mbind result_bind] in Hfeatures.
    destruct (drop_memory_features fs) as [kept|] eqn:Hkept; [|done].
    injection Hfeatures as <-.
    destruct (drop_memory_features_dicts fs kept Hkept) as (L & _ & ->).
    destruct (merged_features_dicts L) as [L' HL'].
    unfold has_short_term_memory. cbn [Py.get mbind result_bind].
    rewrite lookup_insert_eq.
    cbn [default from_option id Py.iter mbind result_bind].
    rewrite HL', any_short_term_memory_dicts.
    rewrite <- HL', existsb_app. cbn. by rewrite orb_true_r.
Qed.

(** What the merge produces passes both checks of the verification, which
    then prints the success line and no warning: a service that stores the
    payload it is sent will be found converged. *)
Theorem payload_passes_checks
    (current system_prompt : value) (payload : gmap string value)
    (env : environment) (st : state) :
  prepare_update_payload current system_prompt = Ok payload →
  response_format_is_json (VDict payload) = Ok true
  ∧ has_short_term_memory (VDict payload) = Ok true
  ∧ verify (VDict payload) env st
    = (Ok tt, {| sent := sent st;
                 stdout := stdout st
                           ++ [success_line; [Lit (NL +:+ rule)]] |}).
Proof.
  intros Hpayload.
  destruct (checks_of_payload _ _ _ Hpayload) as [Hjson Hmemory].
  split_and!; [done..|].
  by rewrite (verify_run (VDict payload) true true).
Qed.

Lemma payload_passes_checks_witness :
  ∃ payload,
    prepare_update_payload (VDict fetched_example) (VStr "Hello.") = Ok payload
    ∧ response_format_is_json (VDict payload) = Ok true
    ∧ has_short_term_memory (VDict payload) = Ok true.
Proof.
  exists merged_example. split; [vm_compute; reflexivity|].
  destruct (payload_passes_checks (VDict fetched_example) (VStr "Hello.")
              merged_example stale_env initial)
    as (Hjson & Hmemory & _); [vm_compute; reflexivity|].
  by split.
Defined.

(** ** The requests of a run, in order *)

(** [verify] sends nothing, whatever the checks find: a failed
    verification is not followed by a second update. *)
Lemma verify_sent updated env st : sent (verify updated env st).2 = sent st.
Proof.
  unfold verify. run_script.
  destruct (response_format_is_json updated) as [[]|]; cbn [negb]; run_script;
    try done;
    destruct (has_short_term_memory updated) as [[]|]; cbn [negb]; by run_script.
Qed.

Ltac run_main := repeat (autorewrite with script; cbn [sent stdout initial app]).

Lemma run_trace_cases env :
  sent (run env).2 = []
  ∨ ∃ prompt n,
      loaded env = Ok prompt ∧ Py.len prompt = Ok n
      ∧ (sent (run env).2 = [get_request env]
         ∨ ∃ resp current payload,
             remote env [] (get_request env) = Responded resp
             ∧ is_success resp = true
             ∧ json_body resp = Some current
             ∧ prepare_update_payload current prompt = Ok payload
             ∧ (sent (run env).2
                = [get_request env; put_request env (VDict payload)]
                ∨ sent (run env).2
                  = [get_request env; put_request env (VDict payload);
                     get_request env])).
Proof.
  rewrite run_sent. unfold main. run_main. rewrite load_run.
  destruct (loaded env) as [prompt|] eqn:Hload; [|by left]. run_main.
  destruct (Py.len prompt) as [n|] eqn:Hlen; [|by left]. run_main.
  right. exists prompt, n. split; [done|]. split; [done|].
  rewrite get_current_agent_run. cbn [sent stdout app].
  destruct (remote env [] (get_request env)) as [resp|] eqn:Hget; [|by left].
  destruct (is_success resp) eqn:Hok; [|by left].
  destruct (json_body resp) as [current|] eqn:Hjson; [|by left]. run_main.
  destruct (Py.getitem current "name"); [|by left]. run_main.
  destruct (Py.get current "response_format" VNone); [|by left]. run_main.
  destruct (feature_types current); [|by left]. run_main.
  destruct (prepare_update_payload current prompt) as [payload|] eqn:Hpayload;
    [|by left].
  run_main.
  destruct (Py.getitem (VDict payload) "response_format"); [|by left]. run_main.
  destruct (Py.getitem (VDict payload) "features") as [features|]; [|by left].
  run_main.
  destruct (Py.iter features) as [fs|]; [|by left]. run_main.
  destruct (mapM _ fs); [|by left]. run_main.
  right. exists resp, current, payload. split_and!; [done..|].
  rewrite update_agent_run. cbn [sent stdout app].
  destruct (remote env _ (put_request env (VDict payload))) as [resp2|];
    [|by left].
  destruct (is_success resp2); [|by left].
  destruct (json_body resp2) as [result|]; [|by left]. run_main.
  destruct (Py.get result "updated_at" _); [|by left]. run_main.
  rewrite get_current_agent_run. cbn [sent stdout app].
  right.
  destruct (remote env [_; _] (get_request env)) as [resp3|]; [|done].
  destruct (is_success resp3); [|done].
  destruct (json_body resp3) as [updated|]; [|done]. run_main.
  destruct (Py.get updated "response_format" VNone); [|done]. run_main.
  destruct (feature_types updated); [|done]. run_main.
  by rewrite verify_sent.
Qed.

(** The requests of a run are the fetch, the update and the second fetch,
    in this order and each at most once: never a fourth request, never a
    POST, never an update that no fetch preceded. *)
Theorem run_sends_get_put_get (env : environment) :
  ∃ payload : gmap string value,
    sent (run env).2
    `prefix_of` [get_request env; put_request env (VDict payload);
                 get_request env].
Proof.
  destruct (run_trace_cases env)
    as [->|(prompt & n & _ & _ & [->|(resp & current & payload & _ & _ & _ & _
                                      & [-> | ->])])].
  - exists ∅. apply prefix_nil.
  - exists ∅. by eexists.
  - exists payload. by eexists.
  - by exists payload.
Qed.

(** An update that is sent carries what [prepare_update_payload] made of
    the body of the first fetch, which was answered with a 2xx status, and
    of the loaded instructions: these are its [agent_instructions], and
    its [response_format] is the JSON mode. *)
Theorem put_carries_merged_payload (env : environment) (r : request) :
  r ∈ sent (run env).2 → method r = PUT →
  ∃ prompt resp current (payload : gmap string value),
    loaded env = Ok prompt
    ∧ remote env [] (get_request env) = Responded resp
    ∧ is_success resp = true
    ∧ json_body resp = Some current
    ∧ prepare_update_payload current prompt = Ok payload
    ∧ r = put_request env (VDict payload)
    ∧ payload !! "agent_instructions" = Some prompt
    ∧ payload !! "response_format"
      = Some (VDict {["type" := VStr "json_object"]}).
Proof.
  intros Hr Hput.
  destruct (run_trace_cases env)
    as [Hs|(prompt & n & Hload & _ & [Hs|(resp & current & payload & Hget & Hok
                                          & Hjson & Hpayload & Hs)])].
  - rewrite Hs in Hr. by apply elem_of_nil in Hr.
  - rewrite Hs in Hr. apply list_elem_of_singleton in Hr as ->. done.
  - assert (r = put_request env (VDict payload)) as ->.
    { destruct Hs as [Hs|Hs]; rewrite Hs in Hr;
        repeat (apply elem_of_cons in Hr as [->|Hr]; [done || discriminate|]);
        by apply elem_of_nil in Hr. }
    exists prompt, resp, current, payload. split_and!; [done..| |].
    + destruct (prepare_update_payload_inv _ _ _ Hpayload)
        as (? & ? & _ & _ & ->).
      rewrite lookup_insert_ne by done. apply lookup_insert_eq.
    + destruct (prepare_update_payload_inv _ _ _ Hpayload)
        as (? & ? & _ & _ & ->).
      rewrite !lookup_insert_ne by done. apply lookup_insert_eq.
Qed.

Lemma put_carries_merged_payload_witness :
  ∃ r, r ∈ sent (run stale_env).2 ∧ method r = PUT
       ∧ ∃ payload : gmap string value,
           r = put_request stale_env (VDict payload)
           ∧ payload !! "agent_instructions" = Some (VStr "Hello.").
Proof.
  assert (Hr : put_request stale_env
                 (VDict (<["features" := VList [SHORT_TERM_MEMORY_CONFIG]]>
                         (<["agent_instructions" := VStr "Hello."]>
                         (<["response_format" :=
                              VDict {["type" := VStr "json_object"]}]>
                         (strip_readonly fetched_example)))))
               ∈ sent (run stale_env).2).
  { vm_compute. apply list_elem_of_In. right. left. reflexivity. }
  eexists. split; [exact Hr|]. split; [reflexivity|].
  destruct (put_carries_merged_payload stale_env _ Hr eq_refl)
    as (prompt & resp & current & payload & Hload & _ & _ & _ & _ & Heq & Hai & _).
  exists payload. split; [exact Heq|].
  injection Hload as <-. exact Hai.
Defined.

(** ** The loading step, again *)

Lemma loaded_document env (d : gmap string value) :
  yaml env = Document (VDict d) →
  loaded env
  = match d !! "spec" with
    | None => Raise ValueError
    | Some (VDict spec) =>
        match spec !! "instructions" with
        | Some v => if Py.truthy v then Ok v else Raise ValueError
        | None => Raise ValueError
        end
    | Some _ => Raise AttributeError
    end.
Proof.
  intros Hy. unfold loaded, load_system_prompt_from_yaml. run_script.
  rewrite Hy. cbn [Py.get]. run_script.
  destruct (d !! "spec") as [spec|]; cbn [default from_option id].
  - destruct spec as [| | | | | |spec]; cbn [Py.get]; run_script; try done.
    destruct (spec !! "instructions") as [v|]; cbn [default from_option id].
    + by destruct (Py.truthy v).
    + done.
  - cbn [Py.get]. run_script. by rewrite lookup_empty.
Qed.

(** When the loading step returns, the file had what it returns. *)
Lemma loaded_ok_inv (env : environment) (v : value) :
  loaded env = Ok v →
  ∃ d spec : gmap string value,
    yaml env = Document (VDict d)
    ∧ d !! "spec" = Some (VDict spec)
    ∧ spec !! "instructions" = Some v
    ∧ Py.truthy v = true.
Proof.
  intros Hload.
  destruct (yaml env) as [| | |data] eqn:Hy;
    try (unfold loaded, load_system_prompt_from_yaml in Hload;
         revert Hload; run_script; rewrite Hy; by run_script).
  destruct data as [| | | | | |d];
    try (unfold loaded, load_system_prompt_from_yaml in Hload;
         revert Hload; run_script; rewrite Hy; by run_script).
  rewrite (loaded_document env d Hy) in Hload.
  destruct (d !! "spec") as [[| | | | | |spec]|] eqn:Hspec; try done.
  destruct (spec !! "instructions") as [w|] eqn:Hw; [|done].
  destruct (Py.truthy w) eqn:Ht; [|done].
  injection Hload as ->. by exists d, spec.
Qed.

(** The loading step returns a value exactly when the file is a mapping
    whose [spec] is a mapping with a true [instructions] value, and it
    returns that value as it is. *)
Theorem loaded_ok_iff (env : environment) (v : value) :
  loaded env = Ok v
  ↔ ∃ d spec : gmap string value,
      yaml env = Document (VDict d)
      ∧ d !! "spec" = Some (VDict spec)
      ∧ spec !! "instructions" = Some v
      ∧ Py.truthy v = true.
Proof.
  split; [apply loaded_ok_inv|].
  intros (d & spec & Hy & Hspec & Hv & Ht).
  by rewrite (loaded_document env d Hy), Hspec, Hv, Ht.
Qed.

(** The "no instructions" error is raised exactly when the file is a
    mapping in which [spec] is missing, or is a mapping whose
    [instructions] is missing or false in Python's sense: the empty string,
    but also [null], [false], a zero, an empty list or mapping. *)
Theorem loaded_value_error_iff (env : environment) :
  loaded env = Raise ValueError
  ↔ ∃ d : gmap string value,
      yaml env = Document (VDict d)
      ∧ (d !! "spec" = None
         ∨ ∃ spec : gmap string value,
             d !! "spec" = Some (VDict spec)
             ∧ (spec !! "instructions" = None
                ∨ ∃ v, spec !! "instructions" = Some v
                       ∧ Py.truthy v = false)).
Proof.
  split.
  - intros Hload.
    destruct (yaml env) as [| | |data] eqn:Hy;
      try (unfold loaded, load_system_prompt_from_yaml in Hload;
           revert Hload; run_script; rewrite Hy; by run_script).
    destruct data as [| | | | | |d];
      try (unfold loaded, load_system_prompt_from_yaml in Hload;
           revert Hload; run_script; rewrite Hy; by run_script).
    rewrite (loaded_document env d Hy) in Hload. exists d. split; [done|].
    destruct (d !! "spec") as [[| | | | | |spec]|] eqn:Hspec; try done;
      [|by left].
    right. exists spec. split; [done|].
    destruct (spec !! "instructions") as [w|] eqn:Hw; [|by left].
    destruct (Py.truthy w) eqn:Ht; [done|].
    right. by exists w.
  - intros (d & Hy & [Hspec|(spec & Hspec & [Hv|(v & Hv & Ht)])]);
      rewrite (loaded_document env d Hy), Hspec; [done| |];
      rewrite Hv; [done|by rewrite Ht].
Qed.

(** A run sends a request only if the declarative file gave true
    instructions that have a length: a string, a list or a mapping.  A
    number or [true] for [instructions] passes the loading step and stops
    the run at the character count. *)
Theorem request_needs_instructions (env : environment) (r : request) :
  r ∈ sent (run env).2 →
  ∃ (d spec : gmap string value) prompt n,
    yaml env = Document (VDict d)
    ∧ d !! "spec" = Some (VDict spec)
    ∧ spec !! "instructions" = Some prompt
    ∧ Py.truthy prompt = true
    ∧ Py.len prompt = Ok n.
Proof.
  intros Hr.
  destruct (run_trace_cases env) as [Hs|(prompt & n & Hload & Hlen & _)].
  - rewrite Hs in Hr. by apply elem_of_nil in Hr.
  - apply loaded_ok_inv in Hload as (d & spec & Hy & Hspec & Hv & Ht).
    by exists d, spec, prompt, n.
Qed.

Lemma request_needs_instructions_witness :
  get_request stale_env ∈ sent (run stale_env).2
  ∧ ∃ (d spec : gmap string value) prompt n,
      yaml stale_env = Document (VDict d)
      ∧ d !! "spec" = Some (VDict spec)
      ∧ spec !! "instructions" = Some prompt
      ∧ Py.truthy prompt = true
      ∧ Py.len prompt = Ok n.
Proof.
  assert (Hr : get_request stale_env ∈ sent (run stale_env).2).
  { vm_compute. apply list_elem_of_In. left. reflexivity. }
  split; [exact Hr|].
  exact (request_needs_instructions stale_env _ Hr).
Defined.

(** ** Between the fetch and the update *)

Lemma mapM_get_type_dicts (L : list (gmap string value)) :
  mapM (λ f, Py.get f "type" VNone) (VDict <$> L)
  = Ok ((λ d : gmap string value, default VNone (d !! "type")) <$> L).
Proof.
  induction L as [|d L IH]; [done|].
  cbn [fmap list_fmap mapM Py.get mbind result_bind]. by rewrite IH.
Qed.

Lemma mapM_get_type_ok (fs ts : list value) :
  mapM (λ f, Py.get f "type" VNone) fs = Ok ts →
  ∃ L : list (gmap string value), fs = VDict <$> L.
Proof.
  revert ts. induction fs as [|f fs IH]; intros ts; [by exists []|].
  cbn [mapM]. destruct f as [| | | | | |d]; cbn [Py.get mbind result_bind];
    try done.
  destruct (mapM _ fs) as [ts'|]; [|done].
  destruct (IH ts' eq_refl) as [L ->]. by exists (d :: L).
Qed.

(** Once line 91 has listed the feature types, the payload can be made:
    nothing between that line and the update can fail. *)
Lemma feature_types_prepare current ts system_prompt :
  feature_types current = Ok ts →
  ∃ payload, prepare_update_payload current system_prompt = Ok payload.
Proof.
  unfold feature_types. destruct current as [| | | | | |d]; try done.
  cbn [Py.get mbind result_bind].
  destruct (Py.iter _) as [fs|] eqn:Hiter; [|done]. cbn [mbind result_bind].
  intros [L ->]%mapM_get_type_ok.
  unfold prepare_update_payload. cbn [Py.items mbind result_bind].
  fold (strip_readonly d). rewrite !lookup_insert_ne by done.
  rewrite strip_readonly_lookup by apply features_not_readonly.
  unfold ensure_short_term_memory. rewrite Hiter. cbn [mbind result_bind].
  rewrite drop_memory_features_filter. by eexists.
Qed.

Lemma payload_listing current system_prompt (payload : gmap string value) :
  prepare_update_payload current system_prompt = Ok payload →
  ∃ features fs ts,
    Py.getitem (VDict payload) "response_format"
    = Ok (VDict {["type" := VStr "json_object"]})
    ∧ Py.getitem (VDict payload) "features" = Ok features
    ∧ Py.iter features = Ok fs
    ∧ mapM (λ f, Py.get f "type" VNone) fs = Ok ts
    ∧ feature_types (VDict payload) = Ok ts.
Proof.
  intros Hpayload.
  destruct (prepare_update_payload_inv _ _ _ Hpayload)
    as (fetched & features & _ & Hfeatures & ->).
  unfold ensure_short_term_memory in Hfeatures.
  destruct (Py.iter _) as [fs|]; [|done]. cbn [mbind result_bind] in Hfeatures.
  destruct (drop_memory_features fs) as [kept|] eqn:Hkept; [|done].
  injection Hfeatures as <-.
  destruct (drop_memory_features_dicts fs kept Hkept) as (L & _ & ->).
  destruct (merged_features_dicts L) as [L' HL'].
  rewrite HL'.
  exists (VList (VDict <$> L')), (VDict <$> L'),
    ((λ d : gmap string value, default VNone (d !! "type")) <$> L').
  unfold feature_types. cbn [Py.getitem Py.get].
  rewrite !lookup_insert_ne by done. rewrite !lookup_insert_eq.
  cbn [default from_option id mbind result_bind Py.iter].
  rewrite mapM_get_type_dicts. by split_and!.
Qed.

Lemma getitem_exit_status (o : value) (k : string) e :
  Py.getitem o k = Raise e → exit_status (Raise e : result unit) = 1.
Proof.
  destruct o; cbn; try by intros [= <-].
  destruct (_ !! _); [done|by intros [= <-]].
Qed.

Lemma mapM_get_type_raises (fs : list value) e :
  mapM (λ f, Py.get f "type" VNone) fs = Raise e → e = AttributeError.
Proof.
  induction fs as [|f fs IH]; [done|]. cbn [mapM].
  destruct f; cbn [Py.get mbind result_bind]; try by intros [= <-].
  destruct (mapM _ fs); [done|]. intros [= <-]. by apply IH.
Qed.

Lemma feature_types_exit_status (o : value) e :
  feature_types o = Raise e → exit_status (Raise e : result unit) = 1.
Proof.
  unfold feature_types. destruct o as [| | | | | |d]; try by intros [= <-].
  cbn [Py.get mbind result_bind].
  destruct (default _ _) as [| | | |s|l|d']; cbn [Py.iter mbind result_bind];
    try (by intros [= <-]); by intros ->%mapM_get_type_raises.
Qed.

Ltac run_with_hyps :=
  repeat first
    [ progress run_main
    | rewrite load_run
    | rewrite get_current_agent_run
    | rewrite update_agent_run
    | match goal with
      | H : ?x = _ |- context [match ?x with _ => _ end] => rewrite H
      | H : ?x = _ |- context [if ?x then _ else _] => rewrite H
      end ].

(** When the fetched configuration cannot be printed, because it has no
    [name] or its features cannot be listed, the run stops there with
    status 1: the fetch is the only request, and nothing is updated. *)
Theorem unprintable_configuration_sends_no_put
    (env : environment) (prompt : value) (n : Z) (resp : response)
    (current : value) (e : exn) :
  loaded env = Ok prompt → Py.len prompt = Ok n →
  remote env [] (get_request env) = Responded resp →
  is_success resp = true → json_body resp = Some current →
  Py.getitem current "name" = Raise e ∨ feature_types current = Raise e →
  (run env).1 = 1 ∧ sent (run env).2 = [get_request env].
Proof.
  intros Hload Hlen Hget Hok Hjson Hfail.
  unfold run, main. run_with_hyps.
  destruct Hfail as [Hname|Htypes].
  - run_with_hyps. split; [by eapply getitem_exit_status|done].
  - destruct (Py.getitem current "name") as [name|e'] eqn:Hname.
    + assert (∃ rf, Py.get current "response_format" VNone = Ok rf) as [rf Hrf].
      { destruct current; try discriminate Hname. by eexists. }
      run_with_hyps. split; [by eapply feature_types_exit_status|done].
    + run_with_hyps. split; [by eapply getitem_exit_status|done].
Qed.

Lemma unprintable_configuration_sends_no_put_witness :
  Py.getitem (VDict {["features" := VList []]}) "name" = Raise KeyError
  ∧ (run nameless_env).1 = 1
  ∧ sent (run nameless_env).2 = [get_request nameless_env].
Proof.
  split; [reflexivity|].
  apply (unprintable_configuration_sends_no_put nameless_env (VStr "Hello.") 6
           {| status_code := 200; text := "{}";
              json_body := Some (VDict {["features" := VList []]}) |}
           (VDict {["features" := VList []]}) KeyError);
    try reflexivity.
  left. reflexivity.
Defined.

Lemma prepare_feature_types current system_prompt payload :
  prepare_update_payload current system_prompt = Ok payload →
  ∃ (fetched : gmap string value) ts,
    current = VDict fetched ∧ feature_types current = Ok ts.
Proof.
  intros Hpayload.
  destruct (prepare_update_payload_inv _ _ _ Hpayload)
    as (fetched & features & -> & Hfeatures & _).
  unfold ensure_short_term_memory in Hfeatures.
  destruct (Py.iter _) as [fs|] eqn:Hiter; [|done].
  cbn [mbind result_bind] in Hfeatures.
  destruct (drop_memory_features fs) as [kept|] eqn:Hkept; [|done].
  destruct (drop_memory_features_dicts fs kept Hkept) as (L & -> & _).
  eexists fetched, _. split; [done|].
  unfold feature_types. cbn [Py.get mbind result_bind]. rewrite Hiter.
  cbn [mbind result_bind]. apply mapM_get_type_dicts.
Qed.

(** Once the fetched configuration has been printed, nothing stands between
    it and the update: the payload is made, and whenever the service
    answers the update of that payload, that update is the second request
    of the run. *)
Theorem printed_configuration_is_updated
    (env : environment) (prompt : value) (n : Z) (resp : response)
    (current name : value) (ts : list value) :
  loaded env = Ok prompt → Py.len prompt = Ok n →
  remote env [] (get_request env) = Responded resp →
  is_success resp = true → json_body resp = Some current →
  Py.getitem current "name" = Ok name → feature_types current = Ok ts →
  ∃ payload,
    prepare_update_payload current prompt = Ok payload
    ∧ ∀ resp2,
        remote env [get_request env] (put_request env (VDict payload))
          = Responded resp2 →
        ∃ rest,
          sent (run env).2
          = get_request env :: put_request env (VDict payload) :: rest.
Proof.
  intros Hload Hlen Hget Hok Hjson Hname Htypes.
  destruct (feature_types_prepare current ts prompt Htypes) as [payload Hpayload].
  exists payload. split; [done|]. intros resp2 Hput.
  assert (∃ rf, Py.get current "response_format" VNone = Ok rf) as [rf Hrf].
  { destruct current; try discriminate Hname. by eexists. }
  destruct (payload_listing _ _ _ Hpayload)
    as (features & fs & ts' & Hl1 & Hl2 & Hl3 & Hl4 & _).
  rewrite run_sent. unfold main. run_with_hyps.
  destruct (is_success resp2); [|by eexists].
  destruct (json_body resp2) as [result|]; [|by eexists]. run_main.
  destruct (Py.get result "updated_at" _); [|by eexists]. run_with_hyps.
  destruct (remote env [_; _] (get_request env)) as [resp3|]; [|by eexists].
  destruct (is_success resp3); [|by eexists].
  destruct (json_body resp3) as [updated|]; [|by eexists]. run_main.
  destruct (Py.get updated "response_format" VNone); [|by eexists]. run_main.
  destruct (feature_types updated); [|by eexists]. run_main.
  rewrite verify_sent. by eexists.
Qed.

Lemma printed_configuration_is_updated_witness :
  prepare_update_payload (VDict fetched_example) (VStr "Hello.")
  = Ok merged_example
  ∧ ∃ rest,
      sent (run stale_env).2
      = get_request stale_env :: put_request stale_env (VDict merged_example)
        :: rest.
Proof.
  destruct (printed_configuration_is_updated stale_env (VStr "Hello.") 6
              stale_response (VDict fetched_example) (VStr "Blueprint Builder")
              [VStr "STRUCTURED_MEMORY"] eq_refl eq_refl eq_refl eq_refl
              eq_refl eq_refl eq_refl)
    as (payload & Hpayload & Hsent).
  assert (payload = merged_example) as ->.
  { assert (Hm : prepare_update_payload (VDict fetched_example) (VStr "Hello.")
                 = Ok merged_example) by (vm_compute; reflexivity).
    congruence. }
  split; [exact Hpayload|].
  exact (Hsent stale_response eq_refl).
Defined.

(** ** After the update *)

(** When the update is answered with a status outside 200..299, the run
    stops with status 1 after two requests: the configuration is not
    fetched again and nothing is verified. *)
Theorem failed_update_is_not_verified
    (env : environment) (prompt : value) (n : Z) (resp resp2 : response)
    (current name : value) (payload : gmap string value) :
  loaded env = Ok prompt → Py.len prompt = Ok n →
  remote env [] (get_request env) = Responded resp →
  is_success resp = true → json_body resp = Some current →
  Py.getitem current "name" = Ok name →
  prepare_update_payload current prompt = Ok payload →
  remote env [get_request env] (put_request env (VDict payload))
    = Responded resp2 →
  is_success resp2 = false →
  (run env).1 = 1
  ∧ sent (run env).2 = [get_request env; put_request env (VDict payload)].
Proof.
  intros Hload Hlen Hget Hok Hjson Hname Hpayload Hput Hfail.
  assert (∃ rf, Py.get current "response_format" VNone = Ok rf) as [rf Hrf].
  { destruct current; try discriminate Hname. by eexists. }
  destruct (prepare_feature_types _ _ _ Hpayload) as (? & ts & _ & Htypes).
  destruct (payload_listing _ _ _ Hpayload)
    as (features & fs & ts' & Hl1 & Hl2 & Hl3 & Hl4 & _).
  unfold run, main. by run_with_hyps.
Qed.

Lemma failed_update_is_not_verified_witness :
  (run read_only_env).1 = 1
  ∧ sent (run read_only_env).2
    = [get_request read_only_env;
       put_request read_only_env (VDict merged_example)].
Proof.
  apply (failed_update_is_not_verified read_only_env (VStr "Hello.") 6
           stale_response
           {| status_code := 500; text := "Internal Server Error";
              json_body := None |}
           (VDict fetched_example) (VStr "Blueprint Builder") merged_example);
    reflexivity.
Defined.

(** A run whose three exchanges succeed against a service that returns, at
    the second fetch, the payload it was sent: the status is 0, the
    requests are the fetch, the update and the fetch, and the run ends on
    the success line. *)
Theorem stored_update_is_verified
    (env : environment) (prompt : value) (n : Z)
    (resp resp2 resp3 : response) (current name : value)
    (payload result : gmap string value) :
  loaded env = Ok prompt → Py.len prompt = Ok n →
  remote env [] (get_request env) = Responded resp →
  is_success resp = true → json_body resp = Some current →
  Py.getitem current "name" = Ok name →
  prepare_update_payload current prompt = Ok payload →
  remote env [get_request env] (put_request env (VDict payload))
    = Responded resp2 →
  is_success resp2 = true → json_body resp2 = Some (VDict result) →
  remote env [get_request env; put_request env (VDict payload)]
    (get_request env) = Responded resp3 →
  is_success resp3 = true → json_body resp3 = Some (VDict payload) →
  (run env).1 = 0
  ∧ sent (run env).2
    = [get_request env; put_request env (VDict payload); get_request env]
  ∧ ∃ lines,
      stdout (run env).2 = lines ++ [success_line; [Lit (NL +:+ rule)]].
Proof.
  intros Hload Hlen Hget Hok Hjson Hname Hpayload Hput Hok2 Hjson2
    Hget3 Hok3 Hjson3.
  assert (∃ rf, Py.get current "response_format" VNone = Ok rf) as [rf Hrf].
  { destruct current; try discriminate Hname. by eexists. }
  destruct (prepare_feature_types _ _ _ Hpayload) as (? & ts & _ & Htypes).
  destruct (payload_listing _ _ _ Hpayload)
    as (features & fs & ts' & Hl1 & Hl2 & Hl3 & Hl4 & Htypes').
  destruct (checks_of_payload _ _ _ Hpayload) as [Hc1 Hc2].
  unfold run, main. run_with_hyps. cbn [Py.get]. run_with_hyps.
  cbn [Py.get]. run_with_hyps.
  rewrite (verify_run (VDict payload) true true) by done.
  cbn [fst snd sent stdout exit_status]. split_and!; [done|done|].
  unfold verify_lines. cbn [andb app].
  by eexists [_; _; _; _; _; _; _; _; _; _; _; _; _; _; _; _; _; _; _; _].
Qed.

Lemma stored_update_is_verified_witness :
  (run storing_env).1 = 0
  ∧ sent (run storing_env).2
    = [get_request storing_env;
       put_request storing_env (VDict merged_example);
       get_request storing_env]
  ∧ ∃ lines,
      stdout (run storing_env).2
      = lines ++ [success_line; [Lit (NL +:+ rule)]].
Proof.
  apply (stored_update_is_verified storing_env (VStr "Hello.") 6
           {| status_code := 200; text := "";
              json_body := Some (VDict fetched_example) |}
           {| status_code := 200; text := "";
              json_body := Some (VDict merged_example) |}
           {| status_code := 200; text := "";
              json_body := Some (VDict merged_example) |}
           (VDict fetched_example) (VStr "Blueprint Builder")
           merged_example merged_example);
    reflexivity.
Defined.

(** ** The creation procedure, again *)

Lemma create_run_set env key :
  environ env !! "LYZR_API_KEY" = Some key → key ≠ "" →
  CreateReadmeAgent.run env
  = let '(r, st) := CreateReadmeAgent.create_agent key env initial in
    (exit_status r, st).
Proof.
  intros Hkey Hne. unfold CreateReadmeAgent.run.
  by rewrite (module_body_set env key).
Qed.

Lemma module_body_empty env :
  environ env !! "LYZR_API_KEY" = Some "" →
  CreateReadmeAgent.module_body env initial
  = (Raise (SystemExit 1), {| sent := []; stdout := missing_key_lines |}).
Proof.
  intros Hkey. unfold CreateReadmeAgent.module_body. run_script.
  rewrite Hkey. cbn [String.eqb]. unfold CreateReadmeAgent.missing_api_key.
  by run_script.
Qed.



(** The creation script ends with status 0 or 1, and with 0 exactly when
    the key is set and not empty and the POST is answered with status 200
    and a JSON object. *)
Theorem create_exit_zero_iff (env : environment) :
  ((CreateReadmeAgent.run env).1 = 0 ∨ (CreateReadmeAgent.run env).1 = 1)
  ∧ ((CreateReadmeAgent.run env).1 = 0
     ↔ ∃ key resp (d : gmap string value),
         environ env !! "LYZR_API_KEY" = Some key ∧ key ≠ ""
         ∧ remote env [] (post_request key) = Responded resp
         ∧ status_code resp = 200
         ∧ json_body resp = Some (VDict d)).
Proof.
  destruct (environ env !! "LYZR_API_KEY") as [key|] eqn:Hkey.
  2:{ unfold CreateReadmeAgent.run. rewrite module_body_unset by done.
      split; [by right|]. split; [done|]. by intros (? & ? & ? & ? & _). }
  destruct (String.eqb_spec key "") as [->|Hne].
  { unfold CreateReadmeAgent.run. rewrite module_body_empty by done.
    split; [by right|]. split; [done|].
    intros (k & r & d & Hk & Hn & _). congruence. }
  rewrite (create_run_set env key Hkey Hne), create_agent_run.
  destruct (remote env [] (post_request key)) as [resp|] eqn:Hpost.
  2:{ split; [by right|]. split; [done|].
      intros (k & r & d & Hk & _ & Hp & _). congruence. }
  destruct (Z.eqb_spec (status_code resp) 200) as [H200|H200].
  2:{ split; [by right|]. split; [done|].
      intros (k & r & d & Hk & _ & Hp & Hs & _). congruence. }
  destruct (json_body resp) as [result|] eqn:Hjson.
  2:{ split; [by right|]. split; [done|].
      intros (k & r & d & Hk & _ & Hp & _ & Hj). congruence. }
  destruct result as [| | | | | |d];
    try (split; [by right|]; split; [done|];
         intros (k & r & d & Hk & _ & Hp & _ & Hj); congruence).
  split; [by left|]. split; [|done].
  intros _. by exists key, resp, d.
Qed.

(** A 200 answer with a JSON object is reported as a success with whatever
    the object has under [agent_id]: [None] when it has nothing there. *)
Theorem create_reports_agent_id
    (env : environment) (key : string) (resp : response)
    (d : gmap string value) :
  environ env !! "LYZR_API_KEY" = Some key → key ≠ "" →
  remote env [] (post_request key) = Responded resp →
  status_code resp = 200 → json_body resp = Some (VDict d) →
  CreateReadmeAgent.run env
  = (0, {| sent := [post_request key];
           stdout := created_lines (default VNone (d !! "agent_id")) |}).
Proof.
  intros Hkey Hne Hpost H200 Hjson.
  rewrite (create_run_set env key Hkey Hne), create_agent_run, Hpost, H200, Hjson.
  reflexivity.
Qed.

Lemma create_reports_agent_id_witness :
  CreateReadmeAgent.run (keyed_env "sk-test" (constant_service anonymous_response))
  = (0, {| sent := [post_request "sk-test"]; stdout := created_lines VNone |}).
Proof.
  assert (Hne : "sk-test" ≠ "") by done.
  exact (create_reports_agent_id
           (keyed_env "sk-test" (constant_service anonymous_response))
           "sk-test" anonymous_response ∅ eq_refl Hne eq_refl eq_refl eq_refl).
Defined.

(** ** The credential, again *)

(** With the credential variable set, the reconciliation script sends its
    value in every request, also when it is the empty string, which the
    creation script takes for an unset variable. *)
Theorem set_credential (env : environment) (key : string) :
  environ env !! "LYZR_API_KEY" = Some key →
  API_KEY env = key
  ∧ (∀ r, r ∈ sent (run env).2 → headers r !! "X-API-Key" = Some key)
  ∧ (key = "" →
     CreateReadmeAgent.run env
     = (1, {| sent := []; stdout := missing_key_lines |})).
Proof.
  intros Hkey.
  assert (Hdefault : API_KEY env = key).
  { unfold API_KEY. by rewrite Hkey. }
  split_and!; [done| |].
  - intros r Hr. rewrite run_sent in Hr.
    destruct (sends_only_main (λ r, headers r !! "X-API-Key" = Some key) env)
      with (st := initial) as (new & Hsent & Hall).
    + cbn. unfold agent_headers. by rewrite lookup_insert_eq, Hdefault.
    + intros. cbn. unfold agent_headers.
      by rewrite lookup_insert_eq, Hdefault.
    + rewrite Hsent in Hr. cbn in Hr. by eapply Forall_forall in Hall.
  - intros ->. unfold CreateReadmeAgent.run. by rewrite module_body_empty.
Qed.

Lemma set_credential_witness :
  environ empty_key_env !! "LYZR_API_KEY" = Some ""
  ∧ (∀ r, r ∈ sent (run empty_key_env).2 → headers r !! "X-API-Key" = Some "")
  ∧ CreateReadmeAgent.run empty_key_env
    = (1, {| sent := []; stdout := missing_key_lines |}).
Proof.
  split; [reflexivity|].
  destruct (set_credential empty_key_env "" eq_refl) as (_ & Hall & Hcreate).
  split; [exact Hall|]. by apply Hcreate.
Defined.

(** ** A declarative file without the nested field *)

(** Whatever the reason why [spec.instructions] is absent, and when it is
    the empty string, the loading step fails, with [ValueError] or with
    [AttributeError], and the run ends with status 1 having sent
    nothing. *)
Lemma absent_instructions_no_request (env : environment) (data : value) :
  yaml env = Document data → instructions_absent_or_empty data = true →
  (loaded env = Raise ValueError ∨ loaded env = Raise AttributeError)
  ∧ (run env).1 = 1 ∧ sent (run env).2 = [].
Proof.
  intros Hy Habsent.
  assert (Hload : loaded env = Raise ValueError
                  ∨ loaded env = Raise AttributeError).
  { destruct data as [| | | | | |d];
      try (right; unfold loaded, load_system_prompt_from_yaml; run_script;
           rewrite Hy; by run_script).
    rewrite (loaded_document env d Hy).
    unfold instructions_absent_or_empty, spec_instructions in Habsent.
    destruct (d !! "spec") as [[| | | | | |spec]|]; try by right.
    - destruct (spec !! "instructions") as [[]|]; try discriminate; [|by left].
      apply String.eqb_eq in Habsent as ->. by left.
    - by left. }
  split; [done|].
  destruct Hload as [Hload|Hload]; by apply (load_failure_no_request env _ Hload).
Qed.

(** C4 does not hold of the code: for a file that reads [spec:] with
    nothing after it, and for an empty file, [spec.instructions] is absent
    and what [main] raises is not the [ValueError] of line 34 but an
    [AttributeError], from calling [get] on [None].  No request is sent
    and the status is 1, as the claim says. *)
Theorem null_spec_raises_attribute_error :
  instructions_absent_or_empty (VDict {["spec" := VNone]}) = true
  ∧ yaml null_spec_env = Document (VDict {["spec" := VNone]})
  ∧ (main null_spec_env initial).1 = Raise AttributeError
  ∧ run null_spec_env = (1, (main null_spec_env initial).2)
  ∧ sent (run null_spec_env).2 = []
  ∧ instructions_absent_or_empty VNone = true
  ∧ (main empty_file_env initial).1 = Raise AttributeError
  ∧ sent (run empty_file_env).2 = [].
Proof. vm_compute. by split_and!. Qed.
